(** * descartes/patch.py: polygon adapter, compound paths and patches

    A shallow embedding of [src/descartes/patch.py].  The module is
    duck-typed Python, so its inputs are modelled by a small universe of
    Python values (None, str, float, list, dict, attribute-carrying
    object); exceptions are an explicit result type, and the module
    logger is the only state that the functions thread.  The calls into
    numpy and matplotlib are modelled as far as the module depends on
    them: the shapes of arrays, the checks of [concatenate] and of the
    [Path] constructor. *)

From Stdlib Require Import ZArith String PrimFloat.
From stdpp Require Import base list.

Local Open Scope string_scope.
Local Open Scope list_scope.
Set Warnings "-register-all".

(** ** Python values *)

(** [VNum] is a Python float (coordinates written as ints stand for the
    floats they convert to); [VStr] a string of one-byte characters;
    [VList] stands for both lists and tuples (the module never tells them
    apart); [VDict] is a dict with string keys, kept as an association
    list in insertion order (the first binding of a key is the live one);
    [VObj] is an instance of some class, seen through its data
    attributes (a Shapely geometry, or any object offering
    [__geo_interface__]). *)
Inductive value : Type :=
| VNone
| VStr (s : string)
| VNum (x : float)
| VList (items : list value)
| VDict (entries : list (string * value))
| VObj (attrs : list (string * value)).

(** Exceptions the module and the library calls it makes can raise.
    An f-string is kept as its pieces, a replacement field [{v}] holding
    the value that [str] would render. *)
Inductive piece : Type :=
| Lit (s : string)
| Fmt (v : value).

Definition fstring : Type := list piece.

Inductive exn : Type :=
| AssertionError (msg : fstring)
| AttributeError (name : string)
| IndexError
| KeyError
| TypeError
| ValueError.

Inductive result (A : Type) : Type :=
| Ok (a : A)
| Raise (e : exn).
Arguments Ok {A} a.
Arguments Raise {A} e.

#[global] Instance result_ret : MRet result := fun _ a => Ok a.
#[global] Instance result_bind : MBind result := fun _ _ f r =>
  match r with
  | Ok a => f a
  | Raise e => Raise e
  end.

(** ** The module logger

    [log = logging.getLogger('base')] is the one object shared between
    calls.  A debug record reaches the handlers only when the logger is
    enabled for DEBUG; the message is built by the caller either way. *)
Record logger : Type := mkLogger {
  debug_enabled : bool;
  records : list fstring
}.

(** A computation runs against the logger and ends with a value or an
    exception; records emitted before an exception stay emitted. *)
Definition M (A : Type) : Type := logger -> result A * logger.

#[global] Instance M_ret : MRet M := fun _ a w => (Ok a, w).
#[global] Instance M_bind : MBind M := fun _ _ f m w =>
  match m w with
  | (Ok a, w') => f a w'
  | (Raise e, w') => (Raise e, w')
  end.

Definition lift {A} (r : result A) : M A := fun w => (r, w).
Definition raise {A} (e : exn) : M A := lift (Raise e).

Definition log_debug (msg : fstring) : M unit := fun w =>
  (Ok tt, if debug_enabled w
          then mkLogger (debug_enabled w) (records w ++ [msg])
          else w).

(** ** Python primitives used by the module *)

Fixpoint assoc (k : string) (l : list (string * value)) : option value :=
  match l with
  | [] => None
  | (k', v) :: rest => if String.eqb k k' then Some v else assoc k rest
  end.

(** [getattr(ob, name)].  Only instances carry the attributes the module
    asks for ([interiors], [exterior], [__geo_interface__], [geom_type],
    [coords]); None, str, float, list and dict have none of them. *)
Definition getattr (ob : value) (name : string) : result value :=
  match ob with
  | VObj attrs =>
      match assoc name attrs with
      | Some v => Ok v
      | None => Raise (AttributeError name)
      end
  | _ => Raise (AttributeError name)
  end.

Definition hasattr (ob : value) (name : string) : bool :=
  match getattr ob name with
  | Ok _ => true
  | Raise _ => false
  end.

(** [ob.get(key, default)]: a dict method.  The attributes of a [VObj]
    are data, so a [get] found there is not callable. *)
Definition py_get (ob : value) (key : string) (default : value) : result value :=
  match ob with
  | VDict entries =>
      match assoc key entries with
      | Some v => Ok v
      | None => Ok default
      end
  | VObj attrs =>
      match assoc "get" attrs with
      | Some _ => Raise TypeError
      | None => Raise (AttributeError "get")
      end
  | _ => Raise (AttributeError "get")
  end.

Definition chars (s : string) : list value :=
  (fun c => VStr (String c EmptyString)) <$> list_ascii_of_string s.

(** [list(ob)], also the items a [for] loop visits. *)
Definition py_list (ob : value) : result (list value) :=
  match ob with
  | VList items => Ok items
  | VStr s => Ok (chars s)
  | VDict entries => Ok ((fun kv => VStr (fst kv)) <$> entries)
  | _ => Raise TypeError
  end.

Definition len (ob : value) : result nat :=
  match ob with
  | VList items => Ok (length items)
  | VStr s => Ok (String.length s)
  | VDict entries => Ok (length entries)
  | _ => Raise TypeError
  end.

Definition truthy (ob : value) : bool :=
  match ob with
  | VNone => false
  | VStr s => negb (String.eqb s "")
  | VNum x => negb (PrimFloat.eqb x zero)
  | VList items => negb (bool_decide (length items = 0))
  | VDict entries => negb (bool_decide (length entries = 0))
  | VObj _ => true
  end.

(** [a or b] *)
Definition py_or (a b : value) : value := if truthy a then a else b.

(** [ob[i]] for a non-negative literal [i].  The keys of a [VDict] are
    strings, so an int is never among them. *)
Definition subscript (ob : value) (i : nat) : result value :=
  match ob with
  | VList items =>
      match items !! i with
      | Some v => Ok v
      | None => Raise IndexError
      end
  | VStr s =>
      match String.get i s with
      | Some c => Ok (VStr (String c EmptyString))
      | None => Raise IndexError
      end
  | VDict _ => Raise KeyError
  | _ => Raise TypeError
  end.

(** [ob[i:]].  A dict rejects a slice key (TypeError: unhashable, up to
    Python 3.11). *)
Definition slice_from (ob : value) (i : nat) : result value :=
  match ob with
  | VList items => Ok (VList (drop i items))
  | VStr s => Ok (VStr (String.substring i (String.length s - i) s))
  | _ => Raise TypeError
  end.

(** [ob == s] for a str literal [s], and [ob is None]. *)
Definition eq_str (ob : value) (s : string) : bool :=
  match ob with
  | VStr s' => String.eqb s' s
  | _ => false
  end.

Definition is_None (ob : value) : bool :=
  match ob with
  | VNone => true
  | _ => false
  end.

(** ** numpy: [asarray], [concatenate], [ones]

    An array is its shape together with the nested sequence it was built
    from; the element type is left abstract.  Anything that is not a
    list is a scalar (shape [()]); the items of a list must all have one
    shape, a ragged nesting being refused with ValueError. *)
Record ndarray : Type := mkArray {
  shape : list nat;
  data : value
}.

Fixpoint shape_of (v : value) : result (list nat) :=
  match v with
  | VList items =>
      match items with
      | [] => Ok [0]
      | x :: rest =>
          match shape_of x with
          | Ok s =>
              if forallb (fun y => match shape_of y with
                                   | Ok s' => bool_decide (s' = s)
                                   | Raise _ => false
                                   end) rest
              then Ok (length items :: s)
              else Raise ValueError
          | Raise e => Raise e
          end
      end
  | _ => Ok []
  end.

Definition asarray (v : value) : result ndarray :=
  s ← shape_of v; mret (mkArray s v).

(** The entries of an array along its first axis. *)
Definition rows (a : ndarray) : list value :=
  match data a with
  | VList items => items
  | _ => []
  end.

Definition trailing (a : ndarray) : option (list nat) :=
  match shape a with
  | [] => None
  | _ :: dims => Some dims
  end.

(** [concatenate(arrays)] along axis 0: at least one array, none of them
    zero-dimensional, all of one rank and agreeing on every axis but the
    first; ValueError otherwise. *)
Definition concatenate (arrays : list ndarray) : result ndarray :=
  match arrays with
  | [] => Raise ValueError
  | a :: others =>
      match trailing a with
      | None => Raise ValueError
      | Some dims =>
          if forallb (fun b => bool_decide (trailing b = Some dims)) others
          then Ok (mkArray (length (mjoin (rows <$> arrays)) :: dims)
                           (VList (mjoin (rows <$> arrays))))
          else Raise ValueError
      end
  end.

(** ** matplotlib: path codes, [Path], [PathPatch] *)

Definition MOVETO : Z := 1.
Definition LINETO : Z := 2.

(** [Path.code_type] is uint8. *)
Definition code_type (z : Z) : Z := z mod 256.

(** One-dimensional code arrays are plain lists. *)
Definition ones (n : nat) : list Z := replicate n (code_type 1).

Definition concatenate_codes (arrays : list (list Z)) : result (list Z) :=
  match arrays with
  | [] => Raise ValueError
  | _ => Ok (mjoin arrays)
  end.

Record Path_t : Type := mkPath {
  vertices : list (float * float);
  codes : list Z
}.

(** What [np.asarray(x, float)] makes of one entry: a float is kept,
    None becomes nan, other objects are refused.  (Strings that spell a
    number, which numpy would parse, are refused here as well.) *)
Definition to_float (v : value) : result float :=
  match v with
  | VNum x => Ok x
  | VNone => Ok nan
  | VStr _ => Raise ValueError
  | _ => Raise TypeError
  end.

Fixpoint scalars (v : value) : list value :=
  match v with
  | VList items => flat_map scalars items
  | _ => [v]
  end.

Definition vertex (row : value) : result (float * float) :=
  match row with
  | VList [a; b] => x ← to_float a; y ← to_float b; mret (x, y)
  | _ => Raise ValueError
  end.

(** [Path(vertices, codes)]: the vertices are converted to floats and
    must have shape (N, 2); the codes must be as many as the vertices
    and, when there are any, begin with MOVETO. *)
Definition Path (verts : ndarray) (cds : list Z) : result Path_t :=
  _ ← mapM to_float (scalars (data verts));
  match shape verts with
  | [n; 2] =>
      vs ← mapM vertex (rows verts);
      if negb (bool_decide (length cds = length vs)) then Raise ValueError
      else match cds with
           | c :: _ =>
               if bool_decide (c = MOVETO)
               then Ok (mkPath vs cds)
               else Raise ValueError
           | [] => Ok (mkPath vs cds)
           end
  | _ => Raise ValueError
  end.

(** The style configuration is an open set of keyword arguments, handed
    on as given.  matplotlib checks them when the patch is built and
    raises for a keyword it does not know or a value it cannot use;
    that check belongs to the renderer and is not modelled, so nothing
    is stated below about whether a patch gets built. *)
Definition kwargs : Type := list (string * value).

Record PathPatch_t : Type := mkPathPatch {
  patch_path : Path_t;
  patch_props : kwargs
}.

Definition PathPatch (ppath : Path_t) (kw : kwargs) : result PathPatch_t :=
  Ok (mkPathPatch ppath kw).

(** ** class Polygon *)

Record Polygon_t : Type := mkPolygon {
  _is_shapely : bool;
  context : value
}.

(** [Polygon.__init__] *)
Definition Polygon (ctx : value) : Polygon_t :=
  if hasattr ctx "interiors" || hasattr ctx "exterior"
  then mkPolygon true ctx
  else match getattr ctx "__geo_interface__" with
       | Ok geo => mkPolygon false geo
       | Raise _ => mkPolygon false ctx
       end.

(** [Polygon.geom_type] *)
Definition geom_type (self : Polygon_t) : M value :=
  if _is_shapely self
  then log_debug [Lit "returning shapely geom type"];;
       lift (getattr (context self) "geom_type")
  else lift (py_get (context self) "type" VNone).

(** [Polygon.exterior] *)
Definition exterior (self : Polygon_t) : M value :=
  if _is_shapely self
  then log_debug [Lit "returning shapely exterior"];;
       ext_list ← lift (ring ← getattr (context self) "exterior";
                        coords ← getattr ring "coords";
                        py_list coords);
       if bool_decide (length ext_list = 0)
       then mret VNone
       else mret (VList ext_list)
  else lift (coordinates ← py_get (context self) "coordinates" (VList []);
             subscript coordinates 0).

(** [Polygon.interiors] *)
Definition interiors (self : Polygon_t) : M value :=
  if _is_shapely self
  then log_debug [Lit "returning shapely interiors"];;
       lift (holes ← getattr (context self) "interiors";
             its ← py_list holes;
             lists ← mapM (fun interior =>
                             coords ← getattr interior "coords";
                             l ← py_list coords;
                             mret (VList l)) its;
             mret (VList lists))
  else lift (coordinates ← py_get (context self) "coordinates" (VList []);
             slice_from coordinates 1).

(** ** PolygonPath and PolygonPatch *)

(** [getattr(ob, name, default)] *)
Definition getattr_default (ob : value) (name : string) (default : value) : value :=
  match getattr ob name with
  | Ok v => v
  | Raise _ => default
  end.

(** The local function [coding] of [PolygonPath]: all LINETO, except for
    a MOVETO written at index 0. *)
Definition coding (ob : value) : result (list Z) :=
  n ← len (py_or (getattr_default ob "coords" VNone) ob);
  let vals := (fun one => code_type (one * LINETO)) <$> ones n in
  if bool_decide (0 < length vals)
  then Ok (<[0 := MOVETO]> vals)
  else Raise IndexError.

Definition PolygonPath (polygon : value) : M (option Path_t) :=
  let this := Polygon polygon in
  tag ← geom_type this;
  if negb (eq_str tag "Polygon")
  then shown ← geom_type this;
       raise (AssertionError [Lit "Wrong Type: "; Fmt shown])
  else
    shown ← exterior this;
    log_debug [Lit "exterior: "; Fmt shown];;
    ext ← exterior this;
    if is_None ext then mret None
    else
      verts ← (ext ← exterior this;
               first ← lift (asarray ext);
               holes ← interiors this;
               others ← lift (rs ← py_list holes; mapM asarray rs);
               lift (concatenate (first :: others)));
      cds ← (ext ← exterior this;
             first ← lift (coding ext);
             holes ← interiors this;
             others ← lift (rs ← py_list holes; mapM coding rs);
             lift (concatenate_codes (first :: others)));
      path ← lift (Path verts cds);
      mret (Some path).

Definition PolygonPatch (polygon : value) (kw : kwargs) : M (option PathPatch_t) :=
  ppath ← PolygonPath polygon;
  match ppath with
  | Some pp => p ← lift (PathPatch pp kw); mret (Some p)
  | None => mret None
  end.

(** ** Sample inputs *)

Definition pt (x y : float) : value := VList [VNum x; VNum y].

Definition square : list (float * float) :=
  [(0, 0); (1, 0); (1, 1); (0, 1)]%float.

(** Decimal literals are read as Python reads them, to the nearest
    binary64. *)
#[warnings="-inexact-float"]
Definition triangle : list (float * float) :=
  [(0.2, 0.2); (0.8, 0.2); (0.5, 0.8)]%float.

(** A Shapely-like polygon: [geom_type], [exterior.coords] and a
    sequence of rings under [interiors]. *)
Definition ring_ob (r : list value) : value := VObj [("coords", VList r)].

Definition shapely (tag : string) (ext : list value) (holes : list (list value)) : value :=
  VObj [("geom_type", VStr tag);
        ("exterior", ring_ob ext);
        ("interiors", VList (ring_ob <$> holes))].

(** A GeoJSON-like mapping. *)
Definition geojson (tag : string) (rings : list (list value)) : value :=
  VDict [("type", VStr tag); ("coordinates", VList (VList <$> rings))].

Definition quiet : logger := mkLogger false [].
Definition verbose : logger := mkLogger true [].

(** ** Vocabulary of the statements *)

(** A ring given by its coordinate pairs. *)
Definition ring_of (r : list (float * float)) : list value :=
  (fun xy => pt (fst xy) (snd xy)) <$> r.

Definition ring_value (r : list (float * float)) : value := VList (ring_of r).

Definition rings_value (rs : list (list (float * float))) : value :=
  VList (ring_value <$> rs).

(** The array numpy makes of a non-empty ring of pairs. *)
Definition ring_array (r : list (float * float)) : ndarray :=
  mkArray [length r; 2] (ring_value r).

(** Where the rings of the given sizes begin in the flat sequences:
    [offset], [offset + n1], [offset + n1 + n2], ... *)
Fixpoint ring_starts (offset : nat) (sizes : list nat) : list nat :=
  match sizes with
  | [] => []
  | n :: rest => offset :: ring_starts (offset + n) rest
  end.

(** The logger after the records [recs] were handed to [log.debug]. *)
Definition emit (recs : list fstring) (w : logger) : logger :=
  if debug_enabled w
  then mkLogger (debug_enabled w) (records w ++ recs)
  else w.

(** [m] ends with [r] and hands [recs] to the logger, whatever the
    logger holds. *)
Definition evaluates {A} (m : M A) (r : result A) (recs : list fstring) : Prop :=
  forall w, m w = (r, emit recs w).

Definition oblivious {A} (m : M A) : Prop :=
  exists r recs, evaluates m r recs.

(** [m] returns [a] normally. *)
Definition returns {A} (m : M A) (a : A) : Prop :=
  forall w, fst (m w) = Ok a.

(** The array pipeline of [PolygonPath] on rings already fetched from
    the adapter: vertices, then codes, then the path. *)
Definition vertex_array (ext holes : value) : result ndarray :=
  first ← asarray ext;
  others ← (rs ← py_list holes; mapM asarray rs);
  concatenate (first :: others).

Definition code_array (ext holes : value) : result (list Z) :=
  first ← coding ext;
  others ← (rs ← py_list holes; mapM coding rs);
  concatenate_codes (first :: others).

Definition path_of_rings (ext holes : value) : result (option Path_t) :=
  verts ← vertex_array ext holes;
  cds ← code_array ext holes;
  path ← Path verts cds;
  mret (Some path).

(** The codes of one ring of [n] vertices. *)
Definition ring_codes (n : nat) : list Z :=
  MOVETO :: replicate (n - 1) LINETO.

(** [list(ob.coords)], the coordinates of a ring object as a list. *)
Definition coords_list (ob : value) : result (list value) :=
  coords ← getattr ob "coords"; py_list coords.

(** What a computation answers, read off under the silent logger. *)
Definition answer {A} (m : M A) : result A := fst (m quiet).

(** [PolygonPath] as a function of the three answers of the adapter;
    the interiors are asked for only once the exterior has been turned
    into an array. *)
Definition path_of_answers (tag ext holes : result value) : result (option Path_t) :=
  t ← tag;
  if negb (eq_str t "Polygon")
  then Raise (AssertionError [Lit "Wrong Type: "; Fmt t])
  else
    e ← ext;
    if is_None e then mret None
    else
      verts ← (first ← asarray e;
               hs ← holes;
               others ← (rs ← py_list hs; mapM asarray rs);
               concatenate (first :: others));
      cds ← (first ← coding e;
             hs ← holes;
             others ← (rs ← py_list hs; mapM coding rs);
             concatenate_codes (first :: others));
      path ← Path verts cds;
      mret (Some path).

(** A point with any number of coordinates. *)
Definition point_of (c : list float) : value := VList (VNum <$> c).

(** * Properties *)

(** ** Running computations *)

Lemma emit_nil w : emit [] w = w.
Proof.
  unfold emit. destruct w as [[] recs]; simpl; [|done].
  by rewrite app_nil_r.
Qed.

Lemma emit_emit r1 r2 w : emit r2 (emit r1 w) = emit (r1 ++ r2) w.
Proof.
  unfold emit. destruct w as [[] recs]; simpl; [|done].
  by rewrite app_assoc.
Qed.

Lemma evaluates_ret {A} (a : A) : evaluates (mret a) (Ok a) [].
Proof. intros w. by rewrite emit_nil. Qed.

Lemma evaluates_lift {A} (r : result A) : evaluates (lift r) r [].
Proof. intros w. by rewrite emit_nil. Qed.

Lemma evaluates_log msg : evaluates (log_debug msg) (Ok tt) [msg].
Proof. intros w. done. Qed.

Lemma evaluates_bind_ok {A B} (m : M A) (f : A -> M B) a r recs1 recs2 :
  evaluates m (Ok a) recs1 ->
  evaluates (f a) r recs2 ->
  evaluates (m ≫= f) r (recs1 ++ recs2).
Proof.
  intros Hm Hf w. unfold mbind, M_bind.
  by rewrite Hm, Hf, emit_emit.
Qed.

Lemma evaluates_bind_raise {A B} (m : M A) (f : A -> M B) e recs :
  evaluates m (Raise e) recs ->
  evaluates (m ≫= f) (Raise e) recs.
Proof. intros Hm w. unfold mbind, M_bind. by rewrite Hm. Qed.

Lemma oblivious_ret {A} (a : A) : oblivious (mret a : M A).
Proof. eexists _, _. apply evaluates_ret. Qed.

Lemma oblivious_lift {A} (r : result A) : oblivious (lift r).
Proof. eexists _, _. apply evaluates_lift. Qed.

Lemma oblivious_raise {A} e : oblivious (raise e : M A).
Proof. apply oblivious_lift. Qed.

Lemma oblivious_log msg : oblivious (log_debug msg).
Proof. eexists _, _. apply evaluates_log. Qed.

Lemma oblivious_bind {A B} (m : M A) (f : A -> M B) :
  oblivious m -> (forall a, oblivious (f a)) -> oblivious (m ≫= f).
Proof.
  intros (r & recs & Hm) Hf. destruct r as [a|e].
  - destruct (Hf a) as (r' & recs' & Hfa).
    eexists _, _. by eapply evaluates_bind_ok.
  - eexists _, _. by eapply evaluates_bind_raise.
Qed.

Create HintDb oblivious.
#[export] Hint Resolve oblivious_ret oblivious_lift oblivious_raise
  oblivious_log : oblivious.

Ltac oblivious :=
  repeat first
    [ apply oblivious_bind; [|intros ?]
    | match goal with
      | |- oblivious (if ?b then _ else _) => destruct b
      | |- oblivious (match ?o with Some _ => _ | None => _ end) => destruct o
      end
    | solve [auto with oblivious] ].

Lemma geom_type_oblivious self : oblivious (geom_type self).
Proof. unfold geom_type. oblivious. Qed.

Lemma exterior_oblivious self : oblivious (exterior self).
Proof. unfold exterior. oblivious. Qed.

Lemma interiors_oblivious self : oblivious (interiors self).
Proof. unfold interiors. oblivious. Qed.

#[export] Hint Resolve geom_type_oblivious exterior_oblivious
  interiors_oblivious : oblivious.

Lemma PolygonPath_oblivious polygon : oblivious (PolygonPath polygon).
Proof. unfold PolygonPath. oblivious. Qed.


Lemma oblivious_quiet {A} (m : M A) w :
  oblivious m -> fst (m w) = fst (m quiet).
Proof. intros (r & recs & Hm). by rewrite !Hm. Qed.

Lemma returns_quiet {A} (m : M A) a :
  oblivious m -> returns m a -> m quiet = (Ok a, quiet).
Proof.
  intros (r & recs & Hm) Hr. specialize (Hr quiet).
  rewrite Hm in *. simpl in Hr. by subst r.
Qed.

Lemma eq_str_true v s : eq_str v s = true <-> v = VStr s.
Proof.
  destruct v; simpl; try (split; [discriminate|congruence]).
  rewrite String.eqb_eq. split; congruence.
Qed.

Lemma eq_str_false v s : v <> VStr s -> eq_str v s = false.
Proof.
  intros Hv. destruct (eq_str v s) eqn:E; [|done].
  by apply eq_str_true in E.
Qed.

(** Stepping through a computation under a silent logger. *)
Lemma run_ok {A B} (m : M A) (f : A -> M B) a :
  m quiet = (Ok a, quiet) -> (m ≫= f) quiet = f a quiet.
Proof. intros Hm. unfold mbind, M_bind. by rewrite Hm. Qed.

Lemma run_assoc {A B C} (m : M A) (f : A -> M B) (g : B -> M C) w :
  ((m ≫= f) ≫= g) w = (m ≫= (fun a => f a ≫= g)) w.
Proof. unfold mbind, M_bind. by destruct (m w) as [[a|e] w']. Qed.

Lemma run_lift {A B} (r : result A) (f : A -> M B) w :
  (lift r ≫= f) w =
  match r with
  | Ok a => f a w
  | Raise e => (Raise e, w)
  end.
Proof. by destruct r. Qed.

Lemma run_log msg {B} (f : unit -> M B) :
  (log_debug msg ≫= f) quiet = f tt quiet.
Proof. done. Qed.

Lemma result_ok {A B} (a : A) (f : A -> result B) : (Ok a ≫= f) = f a.
Proof. done. Qed.

Lemma result_raise {A B} e (f : A -> result B) : (Raise e ≫= f) = Raise e.
Proof. done. Qed.

Ltac run :=
  repeat first
    [ rewrite run_assoc
    | rewrite run_lift
    | rewrite run_log
    | rewrite result_ok
    | rewrite result_raise ];
  cbv beta.

(** [PolygonPath], once the adapter has produced its three answers. *)
Lemma PolygonPath_rings p ext holes w :
  returns (geom_type (Polygon p)) (VStr "Polygon") ->
  returns (exterior (Polygon p)) ext ->
  is_None ext = false ->
  returns (interiors (Polygon p)) holes ->
  fst (PolygonPath p w) = path_of_rings ext holes.
Proof.
  intros Hg He Hn Hi.
  rewrite (oblivious_quiet _ w (PolygonPath_oblivious p)).
  apply returns_quiet in Hg; [|apply geom_type_oblivious].
  apply returns_quiet in He; [|apply exterior_oblivious].
  apply returns_quiet in Hi; [|apply interiors_oblivious].
  unfold PolygonPath, path_of_rings, vertex_array, code_array. cbv zeta.
  rewrite (run_ok _ _ _ Hg).
  change (eq_str (VStr "Polygon") "Polygon") with true. cbn [negb].
  rewrite (run_ok _ _ _ He). run.
  rewrite (run_ok _ _ _ He), Hn. run.
  rewrite (run_ok _ _ _ He). run.
  destruct (asarray ext) as [first|e]; run; [|done].
  rewrite (run_ok _ _ _ Hi). run.
  destruct (py_list holes) as [rs|e] eqn:Hrs; run; [|done].
  destruct (mapM asarray rs) as [others|e]; run; [|done].
  destruct (concatenate (first :: others)) as [verts|e]; run; [|done].
  rewrite (run_ok _ _ _ He). run.
  destruct (coding ext) as [c0|e]; run; [|done].
  rewrite (run_ok _ _ _ Hi). run. rewrite Hrs. run.
  destruct (mapM coding rs) as [cs|e]; run; [|done].
  destruct (concatenate_codes (c0 :: cs)) as [cds|e]; run; [|done].
  by destruct (Path verts cds) as [path|e].
Qed.

(** ** numpy and matplotlib on well-formed rings *)

Lemma mapM_Ok {A B C} (f : B -> result C) (h : A -> B) (g : A -> C) (l : list A) :
  Forall (fun x => f (h x) = Ok (g x)) l -> mapM f (h <$> l) = Ok (g <$> l).
Proof.
  induction 1 as [|x l Hx _ IH]; [done|].
  rewrite !fmap_cons. cbn [mapM]. by rewrite Hx, result_ok, IH.
Qed.

(** ** What the adapter makes of the two sample shapes *)

Lemma shapely_adapter tag ext holes :
  _is_shapely (Polygon (shapely tag ext holes)) = true
  /\ returns (geom_type (Polygon (shapely tag ext holes))) (VStr tag)
  /\ returns (exterior (Polygon (shapely tag ext holes)))
        (if bool_decide (length ext = 0) then VNone else VList ext)
  /\ returns (interiors (Polygon (shapely tag ext holes))) (VList (VList <$> holes)).
Proof.
  split; [done|]. split; [by intros w|]. split.
  - intros w. cbn. unfold mbind, M_bind. cbn.
    by destruct (bool_decide (length ext = 0)).
  - intros w. cbn -[mapM]. unfold mbind at 1, M_bind. cbn -[mapM].
    rewrite (mapM_Ok _ ring_ob VList); [done|].
    by apply Forall_forall.
Qed.

Lemma geojson_adapter tag ext holes :
  _is_shapely (Polygon (geojson tag (ext :: holes))) = false
  /\ returns (geom_type (Polygon (geojson tag (ext :: holes)))) (VStr tag)
  /\ returns (exterior (Polygon (geojson tag (ext :: holes)))) (VList ext)
  /\ returns (interiors (Polygon (geojson tag (ext :: holes)))) (VList (VList <$> holes)).
Proof. repeat split. Qed.

Lemma ring_of_app r1 r2 : ring_of (r1 ++ r2) = ring_of r1 ++ ring_of r2.
Proof. unfold ring_of. apply fmap_app. Qed.

Lemma ring_of_join rs : ring_of (mjoin rs) = mjoin (ring_of <$> rs).
Proof.
  induction rs as [|r rs IH]; [done|].
  simpl. by rewrite ring_of_app, IH.
Qed.

Lemma length_ring_of r : length (ring_of r) = length r.
Proof. unfold ring_of. apply length_fmap. Qed.

Lemma forallb_points (r : list (float * float)) :
  forallb (fun y => match shape_of y with
                    | Ok s' => bool_decide (s' = [2])
                    | Raise _ => false
                    end) (ring_of r) = true.
Proof. induction r as [|xy r IH]; [done|]. simpl. exact IH. Qed.

Lemma asarray_ring r :
  r <> [] ->
  asarray (ring_value r) = Ok (ring_array r).
Proof.
  destruct r as [|xy r]; [done|]. intros _.
  unfold asarray, ring_value. change (ring_of (xy :: r)) with (pt xy.1 xy.2 :: ring_of r).
  cbn [shape_of]. change (shape_of (pt xy.1 xy.2)) with (Ok (A:=list nat) [2]).
  cbv beta iota. rewrite forallb_points.
  rewrite result_ok. cbn [length]. by rewrite length_ring_of.
Qed.

Lemma coding_list (l : list value) :
  coding (VList l) =
  if bool_decide (0 < length l) then Ok (ring_codes (length l)) else Raise IndexError.
Proof.
  unfold coding, getattr_default, py_or. cbn [getattr truthy len].
  rewrite result_ok. unfold ones.
  rewrite fmap_replicate, length_replicate.
  destruct l as [|x l]; [done|]. cbn [length].
  rewrite bool_decide_true by lia.
  unfold ring_codes. cbn [replicate]. simpl. by rewrite Nat.sub_0_r.
Qed.

Lemma coding_ring r :
  r <> [] -> coding (ring_value r) = Ok (ring_codes (length r)).
Proof.
  intros Hr. unfold ring_value. rewrite coding_list, length_ring_of.
  rewrite bool_decide_true; [done|]. destruct r; [done|simpl; lia].
Qed.

Lemma to_float_points (r : list (float * float)) :
  exists fs, mapM to_float (flat_map scalars (ring_of r)) = Ok fs.
Proof.
  induction r as [|xy r [fs IH]]; [by eexists|].
  simpl. rewrite IH. by eexists.
Qed.

Lemma vertex_points (r : list (float * float)) :
  mapM vertex (ring_of r) = Ok r.
Proof.
  induction r as [|[x y] r IH]; [done|].
  simpl. by rewrite IH.
Qed.

Lemma Path_points n (r : list (float * float)) (cds : list Z) :
  length cds = length r ->
  head cds = Some MOVETO ->
  Path (mkArray [n; 2] (ring_value r)) cds = Ok (mkPath r cds).
Proof.
  intros Hlen Hhd. unfold Path, ring_value. cbn [data shape rows scalars].
  destruct (to_float_points r) as [fs ->]. rewrite result_ok.
  rewrite vertex_points, result_ok.
  rewrite bool_decide_true by done. cbn [negb].
  destruct cds as [|c cds]; [done|].
  simpl in Hhd. injection Hhd as ->. by rewrite bool_decide_true.
Qed.

Lemma concatenate_rings ext holes :
  concatenate (ring_array <$> ext :: holes) =
  Ok (ring_array (ext ++ mjoin holes)).
Proof.
  rewrite fmap_cons. unfold concatenate.
  change (trailing (ring_array ext)) with (Some [2]). cbv beta iota.
  assert (forallb (fun b => bool_decide (trailing b = Some [2]))
            (ring_array <$> holes) = true) as ->.
  { induction holes as [|h holes IH]; [done|]. rewrite fmap_cons. exact IH. }
  assert (mjoin (rows <$> ring_array ext :: (ring_array <$> holes))
          = ring_of (ext ++ mjoin holes)) as ->.
  { rewrite ring_of_app, ring_of_join, fmap_cons.
    change (mjoin (?x :: ?l)) with (x ++ mjoin l). f_equal.
    induction holes as [|h holes IH]; [done|].
    rewrite !fmap_cons. change (mjoin (?x :: ?l)) with (x ++ mjoin l).
    by rewrite IH. }
  unfold ring_array, ring_value. by rewrite length_ring_of.
Qed.

Lemma length_ring_codes n : 1 <= n -> length (ring_codes n) = n.
Proof. intros Hn. unfold ring_codes. cbn [length]. rewrite length_replicate. lia. Qed.

Lemma length_codes_join (rs : list (list (float * float))) :
  Forall (fun r => 1 <= length r) rs ->
  length (mjoin ((fun r => ring_codes (length r)) <$> rs)) = length (mjoin rs).
Proof.
  induction 1 as [|r rs Hr _ IH]; [done|].
  rewrite fmap_cons. change (mjoin (?x :: ?l)) with (x ++ mjoin l).
  by rewrite !length_app, length_ring_codes, IH.
Qed.

Lemma length_join_sum {A} (rs : list (list A)) :
  length (mjoin rs) = sum_list (length <$> rs).
Proof.
  induction rs as [|r rs IH]; [done|].
  rewrite fmap_cons. change (mjoin (?x :: ?l)) with (x ++ mjoin l).
  rewrite length_app, IH. done.
Qed.

(** The pipeline on a polygon whose rings are non-empty lists of pairs. *)
Lemma path_of_rings_ok ext holes :
  1 <= length ext ->
  Forall (fun h => 1 <= length h) holes ->
  path_of_rings (ring_value ext) (rings_value holes) =
  Ok (Some (mkPath (ext ++ mjoin holes)
                   (mjoin ((fun r => ring_codes (length r)) <$> ext :: holes)))).
Proof.
  intros Hext Hholes.
  assert (forall r : list (float * float), 1 <= length r -> r <> []) as Hne.
  { intros [|] ?; [simpl in *; lia|done]. }
  unfold path_of_rings, vertex_array, code_array, rings_value. cbn [py_list].
  rewrite asarray_ring, !result_ok by auto.
  rewrite (mapM_Ok asarray ring_value ring_array), result_ok.
  2:{ eapply Forall_impl; [exact Hholes|]. intros r Hr. apply asarray_ring; auto. }
  change (ring_array ext :: (ring_array <$> holes)) with (ring_array <$> ext :: holes).
  rewrite concatenate_rings, result_ok.
  rewrite coding_ring, !result_ok by auto.
  rewrite (mapM_Ok coding ring_value (fun r => ring_codes (length r))), result_ok.
  2:{ eapply Forall_impl; [exact Hholes|]. intros r Hr. apply coding_ring; auto. }
  cbn [concatenate_codes]. rewrite result_ok.
  unfold ring_array. rewrite Path_points; [done| |done].
  change (ring_codes (length ext) :: _) with
    ((fun r => ring_codes (length r)) <$> ext :: holes).
  rewrite length_codes_join; [done|]. by constructor.
Qed.

(** ** Where the MOVETO codes sit *)

Lemma ring_starts_ge off sizes x : x ∈ ring_starts off sizes -> off <= x.
Proof.
  revert off. induction sizes as [|n sizes IH]; intros off Hx; simpl in Hx.
  - by apply elem_of_nil in Hx.
  - apply elem_of_cons in Hx as [->|Hx]; [done|].
    apply IH in Hx. lia.
Qed.

Lemma ring_codes_lookup (sizes : list nat) off i :
  Forall (fun n => 1 <= n) sizes ->
  i < sum_list sizes ->
  mjoin (ring_codes <$> sizes) !! i =
  Some (if bool_decide (off + i ∈ ring_starts off sizes) then MOVETO else LINETO).
Proof.
  intros Hsizes. revert off i.
  induction Hsizes as [|n sizes Hn _ IH]; intros off i Hi; simpl in Hi; [lia|].
  rewrite fmap_cons. change (mjoin (?x :: ?l)) with (x ++ mjoin l).
  cbn [ring_starts].
  destruct (decide (i < n)) as [Hlt|Hge].
  - rewrite lookup_app_l by (rewrite length_ring_codes; lia).
    destruct i as [|j].
    + rewrite bool_decide_true; [done|]. rewrite Nat.add_0_r. apply elem_of_cons. by left.
    + rewrite bool_decide_false.
      * unfold ring_codes. cbn [lookup list_lookup].
        apply lookup_replicate_2. lia.
      * intros [Heq|Hin]%elem_of_cons; [lia|].
        apply ring_starts_ge in Hin. lia.
  - rewrite lookup_app_r by (rewrite length_ring_codes; lia).
    rewrite length_ring_codes by done.
    rewrite (IH (off + n) (i - n)) by lia.
    f_equal. replace (off + n + (i - n)) with (off + i) by lia.
    destruct (decide (off + i ∈ ring_starts (off + n) sizes)) as [Hin|Hout].
    + rewrite !bool_decide_true; [done| |done]. apply elem_of_cons. by right.
    + rewrite !bool_decide_false; [done| |done].
      intros [Heq|Hin]%elem_of_cons; [lia|done].
Qed.

(** ** The compound path of a well-formed polygon *)

(** C1: for an attribute-based polygon whose exterior ring has N >= 1
    points and whose interior rings have h_1 .. h_H >= 1 points each,
    [PolygonPath] returns a path with N + h_1 + ... + h_H vertices and
    as many codes; the code is MOVETO at the positions 0, N, N + h_1,
    N + h_1 + h_2, ... where a ring begins and LINETO everywhere else. *)
Theorem PolygonPath_counts_and_codes p ext holes w :
  _is_shapely (Polygon p) = true ->
  returns (geom_type (Polygon p)) (VStr "Polygon") ->
  returns (exterior (Polygon p)) (ring_value ext) ->
  returns (interiors (Polygon p)) (rings_value holes) ->
  1 <= length ext ->
  Forall (fun h => 1 <= length h) holes ->
  exists path,
    fst (PolygonPath p w) = Ok (Some path)
    /\ length (vertices path) = length ext + sum_list (length <$> holes)
    /\ length (codes path) = length ext + sum_list (length <$> holes)
    /\ forall i, i < length ext + sum_list (length <$> holes) ->
         codes path !! i =
         Some (if bool_decide (i ∈ ring_starts 0 (length <$> ext :: holes))
               then MOVETO else LINETO).
Proof.
  intros _ Hg He Hi Hext Hholes.
  eexists. split.
  { rewrite (PolygonPath_rings p _ _ w Hg He eq_refl Hi).
    by apply path_of_rings_ok. }
  cbn [vertices codes].
  assert (Forall (fun r : list (float * float) => 1 <= length r) (ext :: holes))
    as Hall by by constructor.
  split; [|split].
  - by rewrite length_app, length_join_sum.
  - rewrite length_codes_join by done.
    change (mjoin (ext :: holes)) with (ext ++ mjoin holes).
    by rewrite length_app, length_join_sum.
  - intros i Hi'.
    change (fmap (M:=list) (fun r : list (float * float) => ring_codes (length r)))
      with (fmap (M:=list) (ring_codes ∘ length (A:=float * float))).
    rewrite (list_fmap_compose length ring_codes (ext :: holes)).
    rewrite (ring_codes_lookup _ 0 i); [done| |by rewrite fmap_cons].
    by apply Forall_fmap.
Qed.

Lemma PolygonPath_counts_and_codes_witness :
  exists path,
    fst (PolygonPath (shapely "Polygon" (ring_of square) [ring_of triangle]) verbose)
      = Ok (Some path)
    /\ length (vertices path) = 7
    /\ length (codes path) = 7
    /\ forall i, i < 7 ->
         codes path !! i =
         Some (if bool_decide (i ∈ [0; 4]) then MOVETO else LINETO).
Proof.
  apply (PolygonPath_counts_and_codes
           (shapely "Polygon" (ring_of square) [ring_of triangle])
           square [triangle] verbose).
  - reflexivity.
  - intros w. reflexivity.
  - intros w. reflexivity.
  - intros w. reflexivity.
  - simpl. lia.
  - repeat constructor.
Defined.

Lemma run_log_value msg {B} (f : unit -> M B) w :
  fst ((log_debug msg ≫= f) w) =
  fst (f tt (if debug_enabled w
             then mkLogger (debug_enabled w) (records w ++ [msg])
             else w)).
Proof. done. Qed.

Lemma Polygon_dict entries : Polygon (VDict entries) = mkPolygon false (VDict entries).
Proof. done. Qed.

Lemma Polygon_geo_interface entries :
  Polygon (VObj [("__geo_interface__", VDict entries)]) = mkPolygon false (VDict entries).
Proof. done. Qed.

Lemma mapM_coords_list (its : list value) (holes : list (list value)) :
  Forall2 (fun it h => coords_list it = Ok h) its holes ->
  mapM (M:=result) (fun interior =>
          coords ← getattr interior "coords";
          l ← py_list coords;
          mret (VList l)) its = Ok (VList <$> holes).
Proof.
  induction 1 as [|it h its holes Hit _ IH]; [done|].
  rewrite fmap_cons. cbn [mapM]. rewrite IH. unfold coords_list in Hit.
  destruct (getattr it "coords") as [c|]; [|discriminate].
  rewrite result_ok in Hit. rewrite result_ok, Hit. by rewrite !result_ok.
Qed.

(** What the adapter answers for an object that carries [geom_type],
    an [exterior] ring and a sequence of [interiors] rings. *)
Lemma attribute_polygon_answers p tag ring hs its (ext : list value) holes :
  getattr p "geom_type" = Ok tag ->
  getattr p "exterior" = Ok ring ->
  coords_list ring = Ok ext ->
  ext <> [] ->
  getattr p "interiors" = Ok hs ->
  py_list hs = Ok its ->
  Forall2 (fun it h => coords_list it = Ok h) its holes ->
  returns (geom_type (Polygon p)) tag
  /\ returns (exterior (Polygon p)) (VList ext)
  /\ returns (interiors (Polygon p)) (VList (VList <$> holes)).
Proof.
  intros Htag Hring Hcoords Hne Hhs Hits Hholes.
  assert (Polygon p = mkPolygon true p) as ->.
  { unfold Polygon, hasattr. rewrite Hring. by rewrite orb_true_r. }
  split; [|split]; intros w'.
  - unfold geom_type. cbn [_is_shapely context]. by rewrite Htag.
  - unfold exterior. cbn [_is_shapely context].
    rewrite run_log_value, run_lift, Hring, result_ok.
    fold (coords_list ring). rewrite Hcoords.
    rewrite bool_decide_false; [done|]. by destruct ext.
  - unfold interiors. cbn [_is_shapely context].
    rewrite run_log_value. unfold lift. cbn [fst].
    by rewrite Hhs, result_ok, Hits, result_ok, (mapM_coords_list its holes Hholes).
Qed.

(** What the adapter answers for a mapping with the entries "type" and
    "coordinates", the latter a non-empty list of rings. *)
Lemma mapping_polygon_answers entries tag ext holes :
  assoc "type" entries = Some tag ->
  assoc "coordinates" entries = Some (VList (ext :: holes)) ->
  returns (geom_type (Polygon (VDict entries))) tag
  /\ returns (exterior (Polygon (VDict entries))) ext
  /\ returns (interiors (Polygon (VDict entries))) (VList holes).
Proof.
  intros Htag Hcoords. rewrite Polygon_dict.
  split; [|split]; intros w'.
  - unfold geom_type. cbn [_is_shapely context py_get lift fst]. by rewrite Htag.
  - unfold exterior. cbn [_is_shapely context py_get lift fst]. by rewrite Hcoords.
  - unfold interiors. cbn [_is_shapely context py_get lift fst]. by rewrite Hcoords.
Qed.

(** C6: for a valid polygon with a non-null exterior, the vertices of
    the path are the exterior ring's coordinate pairs followed by those
    of each interior ring, in the order and with the values given.
    This holds for every attribute-based object (type "Polygon", its
    [exterior.coords] listing as the pairs [ext] and the rings under
    [interiors] listing as [holes]), for every mapping whose
    "coordinates" are [[ext, hole_1, ...]], and for such a mapping
    behind [__geo_interface__].  A square exterior without holes gives
    its 4 vertices in order under the codes
    [MOVETO; LINETO; LINETO; LINETO]. *)
Theorem PolygonPath_vertices_in_order ext holes w :
  1 <= length ext ->
  Forall (fun h => 1 <= length h) holes ->
  (forall p ring hs its,
     getattr p "geom_type" = Ok (VStr "Polygon") ->
     getattr p "exterior" = Ok ring ->
     coords_list ring = Ok (ring_of ext) ->
     getattr p "interiors" = Ok hs ->
     py_list hs = Ok its ->
     Forall2 (fun it h => coords_list it = Ok (ring_of h)) its holes ->
     exists cds, fst (PolygonPath p w) = Ok (Some (mkPath (ext ++ mjoin holes) cds)))
  /\ (forall entries,
       assoc "type" entries = Some (VStr "Polygon") ->
       assoc "coordinates" entries = Some (rings_value (ext :: holes)) ->
       (exists cds, fst (PolygonPath (VDict entries) w)
                    = Ok (Some (mkPath (ext ++ mjoin holes) cds)))
       /\ (exists cds, fst (PolygonPath (VObj [("__geo_interface__", VDict entries)]) w)
                       = Ok (Some (mkPath (ext ++ mjoin holes) cds))))
  /\ fst (PolygonPath (shapely "Polygon" (ring_of square) []) w) =
       Ok (Some (mkPath square [MOVETO; LINETO; LINETO; LINETO]))
  /\ fst (PolygonPath (geojson "Polygon" [ring_of square]) w) =
       Ok (Some (mkPath square [MOVETO; LINETO; LINETO; LINETO])).
Proof.
  intros Hext Hholes. split; [|split; [|split]].
  - intros p ring hs its Htag Hring Hcoords Hhs Hits Hrings.
    destruct (attribute_polygon_answers p (VStr "Polygon") ring hs its
                (ring_of ext) (ring_of <$> holes)) as (Hg & He & Hi); try done.
    { destruct ext; [simpl in Hext; lia|done]. }
    { by apply Forall2_fmap_r. }
    rewrite <- list_fmap_compose in Hi.
    eexists. rewrite (PolygonPath_rings p (ring_value ext) (rings_value holes) w);
      [|done..].
    by apply path_of_rings_ok.
  - intros entries Htag Hcoords.
    destruct (mapping_polygon_answers entries (VStr "Polygon") (ring_value ext)
                (fmap (M:=list) ring_value holes) Htag Hcoords) as (Hg & He & Hi).
    assert (fst (PolygonPath (VDict entries) w) =
            Ok (Some (mkPath (ext ++ mjoin holes)
                        (mjoin ((fun r => ring_codes (length r)) <$> ext :: holes)))))
      as Hpath.
    { rewrite (PolygonPath_rings _ (ring_value ext) (rings_value holes) w);
        [|done..].
      by apply path_of_rings_ok. }
    split; eexists; [exact Hpath|].
    unfold PolygonPath in *.
    by rewrite Polygon_geo_interface, <- Polygon_dict.
  - rewrite (PolygonPath_rings _ (ring_value square) (rings_value []) w);
      [done|by intros ?..|done|by intros ?].
  - rewrite (PolygonPath_rings _ (ring_value square) (rings_value []) w);
      [done|by intros ?..|done|by intros ?].
Qed.

Lemma PolygonPath_vertices_in_order_witness :
  (exists cds,
     fst (PolygonPath (shapely "Polygon" (ring_of square) [ring_of triangle; ring_of square])
            verbose)
     = Ok (Some (mkPath (square ++ triangle ++ square) cds)))
  /\ (exists cds,
       fst (PolygonPath (geojson "Polygon" [ring_of square; ring_of triangle]) quiet)
       = Ok (Some (mkPath (square ++ triangle) cds))).
Proof.
  split.
  - destruct (PolygonPath_vertices_in_order square [triangle; square] verbose)
      as [Hobject _].
    + simpl. lia.
    + repeat constructor.
    + apply (Hobject
               (shapely "Polygon" (ring_of square) [ring_of triangle; ring_of square])
               (ring_ob (ring_of square))
               (VList [ring_ob (ring_of triangle); ring_ob (ring_of square)])
               [ring_ob (ring_of triangle); ring_ob (ring_of square)]);
        try reflexivity.
      repeat constructor.
  - destruct (PolygonPath_vertices_in_order square [triangle] quiet)
      as (_ & Hmapping & _).
    + simpl. lia.
    + repeat constructor.
    + apply (Hmapping [("type", VStr "Polygon");
                       ("coordinates", rings_value [square; triangle])]);
        reflexivity.
Defined.

(** ** The type assertion *)

(** C2: when the adapter's [geom_type] is anything but the string
    "Polygon", [PolygonPath] raises an AssertionError whose message is
    "Wrong Type: " followed by that very value; no path and no None is
    returned. *)
Theorem PolygonPath_wrong_type p tag w :
  fst (geom_type (Polygon p) w) = Ok tag ->
  tag <> VStr "Polygon" ->
  fst (PolygonPath p w) = Raise (AssertionError [Lit "Wrong Type: "; Fmt tag]).
Proof.
  intros Htag Hne.
  destruct (geom_type_oblivious (Polygon p)) as (r & recs & Hg).
  rewrite Hg in Htag. simpl in Htag. subst r.
  unfold PolygonPath. cbv zeta. unfold mbind at 1, M_bind.
  rewrite Hg, (eq_str_false _ _ Hne). cbn [negb].
  unfold mbind, M_bind. by rewrite Hg.
Qed.

Lemma PolygonPath_wrong_type_witness :
  fst (PolygonPath (shapely "MultiPolygon" (ring_of square) []) verbose) =
  Raise (AssertionError [Lit "Wrong Type: "; Fmt (VStr "MultiPolygon")]).
Proof.
  apply (PolygonPath_wrong_type
           (shapely "MultiPolygon" (ring_of square) []) (VStr "MultiPolygon") verbose).
  - reflexivity.
  - discriminate.
Defined.

(** ** No geometry *)

Lemma PolygonPatch_of_path p kw w :
  fst (PolygonPatch p kw w) =
  match fst (PolygonPath p w) with
  | Ok (Some pp) => Ok (Some (mkPathPatch pp kw))
  | Ok None => Ok None
  | Raise e => Raise e
  end.
Proof.
  unfold PolygonPatch, mbind, M_bind.
  by destruct (PolygonPath p w) as [[[pp|]|e] w'].
Qed.

Lemma PolygonPath_null p w :
  returns (geom_type (Polygon p)) (VStr "Polygon") ->
  returns (exterior (Polygon p)) VNone ->
  fst (PolygonPath p w) = Ok None.
Proof.
  intros Hg He.
  rewrite (oblivious_quiet _ w (PolygonPath_oblivious p)).
  apply returns_quiet in Hg; [|apply geom_type_oblivious].
  apply returns_quiet in He; [|apply exterior_oblivious].
  unfold PolygonPath. cbv zeta.
  rewrite (run_ok _ _ _ Hg).
  change (eq_str (VStr "Polygon") "Polygon") with true. cbn [negb].
  rewrite (run_ok _ _ _ He). run.
  by rewrite (run_ok _ _ _ He).
Qed.

(** C3: an attribute-based Polygon whose exterior has no coordinates:
    the adapter's [exterior] is None, [PolygonPath] returns None, and so
    does [PolygonPatch] under every style configuration; nothing is
    raised. *)
Theorem empty_exterior_is_null p ring coords kw w :
  getattr p "geom_type" = Ok (VStr "Polygon") ->
  getattr p "exterior" = Ok ring ->
  getattr ring "coords" = Ok coords ->
  py_list coords = Ok [] ->
  _is_shapely (Polygon p) = true
  /\ fst (exterior (Polygon p) w) = Ok VNone
  /\ fst (PolygonPath p w) = Ok None
  /\ fst (PolygonPatch p kw w) = Ok None.
Proof.
  intros Htag Hring Hcoords Hlist.
  assert (Polygon p = mkPolygon true p) as Hp.
  { unfold Polygon, hasattr. rewrite Hring. by rewrite orb_true_r. }
  assert (returns (geom_type (Polygon p)) (VStr "Polygon")) as Hg.
  { intros w'. rewrite Hp. unfold geom_type. cbn [_is_shapely context].
    by rewrite Htag. }
  assert (returns (exterior (Polygon p)) VNone) as He.
  { intros w'. rewrite Hp. unfold exterior. cbn [_is_shapely context].
    rewrite Hring, result_ok, Hcoords, result_ok, Hlist. done. }
  split; [by rewrite Hp|]. split; [apply He|].
  split; [by apply PolygonPath_null|].
  by rewrite PolygonPatch_of_path, PolygonPath_null.
Qed.

Lemma empty_exterior_is_null_witness :
  _is_shapely (Polygon (shapely "Polygon" [] [])) = true
  /\ fst (exterior (Polygon (shapely "Polygon" [] [])) verbose) = Ok VNone
  /\ fst (PolygonPath (shapely "Polygon" [] []) verbose) = Ok None
  /\ fst (PolygonPatch (shapely "Polygon" [] []) [("fc", VStr "blue")] verbose) = Ok None.
Proof.
  apply (empty_exterior_is_null (shapely "Polygon" [] []) (ring_ob []) (VList [])
           [("fc", VStr "blue")] verbose); reflexivity.
Defined.

(** ** The adapter *)

(** C5: on a mapping whose "coordinates" entry is [[ext, hole1, ...]],
    as in [{"type": "Polygon", "coordinates": [ext, hole1, hole2]}],
    given directly or through [__geo_interface__], the adapter's
    [exterior] is [ext] itself and its [interiors] is the list of the
    remaining rings as they stand, in order; with a single ring under
    "coordinates" the interiors are the empty list. *)
Theorem geojson_exterior_interiors entries ext holes w :
  assoc "coordinates" entries = Some (VList (ext :: holes)) ->
  exterior (Polygon (VDict entries)) w = (Ok ext, w)
  /\ interiors (Polygon (VDict entries)) w = (Ok (VList holes), w)
  /\ exterior (Polygon (VObj [("__geo_interface__", VDict entries)])) w = (Ok ext, w)
  /\ interiors (Polygon (VObj [("__geo_interface__", VDict entries)])) w
     = (Ok (VList holes), w)
  /\ (length (ext :: holes) = 1 ->
      interiors (Polygon (VDict entries)) w = (Ok (VList []), w)).
Proof.
  intros Hcoords. rewrite Polygon_geo_interface, Polygon_dict.
  assert (exterior (mkPolygon false (VDict entries)) w = (Ok ext, w)) as He.
  { unfold exterior. cbn [_is_shapely context py_get]. by rewrite Hcoords. }
  assert (interiors (mkPolygon false (VDict entries)) w = (Ok (VList holes), w)) as Hi.
  { unfold interiors. cbn [_is_shapely context py_get]. by rewrite Hcoords. }
  repeat split; try done.
  intros Hone. rewrite Hi. by destruct holes.
Qed.

Lemma geojson_exterior_interiors_witness :
  let mapping := [("type", VStr "Polygon");
                  ("coordinates",
                   VList [ring_value square; ring_value triangle; ring_value triangle])] in
  exterior (Polygon (VDict mapping)) verbose = (Ok (ring_value square), verbose)
  /\ interiors (Polygon (VDict mapping)) verbose
     = (Ok (VList [ring_value triangle; ring_value triangle]), verbose).
Proof.
  intros mapping.
  destruct (geojson_exterior_interiors mapping (ring_value square)
              [ring_value triangle; ring_value triangle] verbose) as (He & Hi & _).
  - reflexivity.
  - split; [exact He|exact Hi].
Defined.



(** C8: [geom_type] of an attribute-based input is the wrapped object's
    own [geom_type] attribute; of a mapping-based input it is the
    mapping's "type" entry, and None when the mapping has no such
    key. *)
Theorem geom_type_by_kind p w :
  (forall tag,
     _is_shapely (Polygon p) = true ->
     getattr p "geom_type" = Ok tag ->
     fst (geom_type (Polygon p) w) = Ok tag)
  /\ (forall entries,
        _is_shapely (Polygon p) = false ->
        context (Polygon p) = VDict entries ->
        fst (geom_type (Polygon p) w) =
        Ok (match assoc "type" entries with
            | Some tag => tag
            | None => VNone
            end)).
Proof.
  split.
  - intros tag Hkind Htag.
    assert (context (Polygon p) = p) as Hctx.
    { revert Hkind. unfold Polygon.
      destruct (hasattr p "interiors" || hasattr p "exterior"); [done|].
      by destruct (getattr p "__geo_interface__"). }
    unfold geom_type. rewrite Hkind. cbn. by rewrite Hctx, Htag.
  - intros entries Hkind Hctx.
    unfold geom_type. rewrite Hkind, Hctx. cbn.
    by destruct (assoc "type" entries).
Qed.

Lemma geom_type_by_kind_witness :
  fst (geom_type (Polygon (shapely "Polygon" (ring_of square) [])) verbose) =
    Ok (VStr "Polygon")
  /\ fst (geom_type (Polygon (geojson "Polygon" [ring_of square])) verbose) =
     Ok (VStr "Polygon")
  /\ fst (geom_type (Polygon (VDict [("coordinates", VList [])])) verbose) = Ok VNone.
Proof.
  split; [|split].
  - apply (proj1 (geom_type_by_kind (shapely "Polygon" (ring_of square) []) verbose));
      reflexivity.
  - apply (proj2 (geom_type_by_kind (geojson "Polygon" [ring_of square]) verbose)
             [("type", VStr "Polygon"); ("coordinates", VList [ring_value square])]);
      reflexivity.
  - apply (proj2 (geom_type_by_kind (VDict [("coordinates", VList [])]) verbose)
             [("coordinates", VList [])]);
      reflexivity.
Defined.

Lemma exterior_missing_coordinates entries w :
  assoc "coordinates" entries = None ->
  exterior (mkPolygon false (VDict entries)) w = (Raise IndexError, w)
  /\ interiors (mkPolygon false (VDict entries)) w = (Ok (VList []), w).
Proof.
  intros Hnone. unfold exterior, interiors. cbn [_is_shapely context py_get].
  by rewrite Hnone.
Qed.

(** C4: a mapping without "coordinates".  [exterior] indexes the empty
    default and raises IndexError, where [interiors] slices the same
    default and returns the empty list; [PolygonPath] fails with that
    IndexError. *)
Theorem exterior_without_coordinates w :
  exterior (Polygon (VDict [("type", VStr "Polygon")])) w = (Raise IndexError, w)
  /\ interiors (Polygon (VDict [("type", VStr "Polygon")])) w = (Ok (VList []), w)
  /\ fst (PolygonPath (VDict [("type", VStr "Polygon")]) w) = Raise IndexError.
Proof.
  rewrite Polygon_dict.
  destruct (exterior_missing_coordinates [("type", VStr "Polygon")] w eq_refl)
    as [He Hi].
  split; [exact He|]. split; [exact Hi|].
  assert (geom_type (mkPolygon false (VDict [("type", VStr "Polygon")])) w
          = (Ok (VStr "Polygon"), w)) as Hg by done.
  unfold PolygonPath. rewrite Polygon_dict. cbv zeta.
  unfold mbind at 1, M_bind. rewrite Hg.
  change (eq_str (VStr "Polygon") "Polygon") with true. cbn [negb].
  unfold mbind at 1, M_bind. by rewrite He.
Qed.

(** ** A ring without vertices *)

Lemma shape_of_raise v e : shape_of v = Raise e -> e = ValueError.
Proof.
  revert v e. fix IH 1. intros [| | |items| |] e; try discriminate.
  destruct items as [|x rest]; [discriminate|]. cbn [shape_of].
  destruct (shape_of x) as [s|e'] eqn:Hx.
  - destruct (forallb _ rest); [discriminate|congruence].
  - intros [= <-]. by apply (IH x).
Qed.

Lemma asarray_raise v e : asarray v = Raise e -> e = ValueError.
Proof.
  unfold asarray. destruct (shape_of v) as [s|e'] eqn:Hs; [discriminate|].
  intros [= <-]. by apply shape_of_raise in Hs.
Qed.

Lemma concatenate_raise arrays e : concatenate arrays = Raise e -> e = ValueError.
Proof.
  unfold concatenate. destruct arrays as [|a others]; [congruence|].
  destruct (trailing a); [|congruence].
  destruct (forallb _ others); [discriminate|congruence].
Qed.

Lemma mapM_raise {A B} (f : A -> result B) (P : exn -> Prop) (l : list A) e :
  Forall (fun x => forall e', f x = Raise e' -> P e') l ->
  mapM f l = Raise e -> P e.
Proof.
  induction 1 as [|x l Hx _ IH]; [discriminate|]. cbn [mapM].
  destruct (f x) as [y|e'] eqn:Hfx.
  - rewrite result_ok. destruct (mapM f l) as [k|e'']; [discriminate|].
    rewrite result_raise. intros [= <-]. by apply IH.
  - rewrite result_raise. intros [= <-]. by apply Hx.
Qed.

Lemma mapM_Ok_inv {A B} (f : A -> result B) (l : list A) (k : list B) :
  mapM f l = Ok k -> Forall2 (fun x y => f x = Ok y) l k.
Proof.
  revert k. induction l as [|x l IH]; intros k; cbn [mapM].
  - intros [= <-]. constructor.
  - destruct (f x) as [y|e] eqn:Hfx; [|discriminate]. rewrite result_ok.
    destruct (mapM f l) as [k'|e]; [|discriminate]. rewrite result_ok.
    intros [= <-]. constructor; auto.
Qed.

Lemma concatenate_trailing a others verts :
  concatenate (a :: others) = Ok verts ->
  Forall (fun b => trailing b = trailing a) others.
Proof.
  unfold concatenate. destruct (trailing a) as [dims|]; [|discriminate].
  destruct (forallb _ others) eqn:Hall; [|discriminate]. intros _.
  apply Forall_forall. intros b Hb.
  rewrite forallb_forall in Hall. apply list_elem_of_In, Hall in Hb.
  by apply bool_decide_eq_true in Hb.
Qed.

(** An array of rank one was made from a list. *)
Lemma asarray_rank_one v b :
  asarray v = Ok b -> trailing b = Some [] -> exists l, v = VList l.
Proof.
  unfold asarray. destruct (shape_of v) as [s|] eqn:Hs; [|discriminate].
  intros [= <-]. destruct v; try discriminate Hs || (injection Hs as <-; discriminate).
  by eexists.
Qed.

Lemma coding_empty_among (rs : list value) :
  Forall (fun r => exists l, r = VList l) rs ->
  VList [] ∈ rs ->
  mapM coding rs = Raise IndexError.
Proof.
  induction 1 as [|r rs [l ->] _ IH]; intros Hin.
  - by apply elem_of_nil in Hin.
  - cbn [mapM]. rewrite coding_list. destruct l as [|x l].
    + done.
    + rewrite bool_decide_true by (simpl; lia). rewrite result_ok.
      apply elem_of_cons in Hin as [?|Hin]; [discriminate|].
      by rewrite IH.
Qed.

Lemma vertex_array_empty_ring pairs rs :
  pairs <> [] ->
  VList [] ∈ rs ->
  vertex_array (ring_value pairs) (VList rs) = Raise ValueError.
Proof.
  intros Hpairs Hin. unfold vertex_array. cbn [py_list].
  destruct (asarray (ring_value pairs)) as [first|e] eqn:Hfirst.
  2:{ apply asarray_raise in Hfirst as ->. done. }
  rewrite !result_ok.
  destruct (mapM asarray rs) as [others|e] eqn:Hothers.
  2:{ rewrite result_raise. f_equal.
      apply (mapM_raise asarray (fun e => e = ValueError) rs); [|done].
      apply Forall_forall. intros ? _ ?. apply asarray_raise. }
  rewrite result_ok.
  destruct (concatenate (first :: others)) as [verts|e] eqn:Hcat.
  2:{ by apply concatenate_raise in Hcat as ->. }
  exfalso.
  apply concatenate_trailing in Hcat. apply mapM_Ok_inv in Hothers.
  destruct (proj1 (list_elem_of_lookup _ _) Hin) as [i Hi].
  destruct (Forall2_lookup_l _ _ _ _ _ Hothers Hi) as (b & Hb & Hab).
  rewrite Forall_forall in Hcat.
  specialize (Hcat b (list_elem_of_lookup_2 _ _ _ Hb)).
  injection Hab as <-. cbn in Hcat.
  rewrite asarray_ring in Hfirst by done. injection Hfirst as <-.
  discriminate Hcat.
Qed.

(** With an empty list among the interior rings the call ends in an
    exception: the one of the vertex stage when numpy cannot join the
    arrays, the IndexError of [coding] otherwise. *)
Lemma path_of_rings_empty_ring ext rs :
  ext <> [] ->
  VList [] ∈ rs ->
  path_of_rings (VList ext) (VList rs) =
  match vertex_array (VList ext) (VList rs) with
  | Ok _ => Raise IndexError
  | Raise _ => Raise ValueError
  end.
Proof.
  intros Hext Hin. unfold path_of_rings.
  destruct (vertex_array (VList ext) (VList rs)) as [verts|e] eqn:Hverts.
  2:{ rewrite result_raise. f_equal. revert Hverts.
      unfold vertex_array. cbn [py_list].
      destruct (asarray (VList ext)) as [first|e1] eqn:Hfirst.
      2:{ rewrite result_raise. intros [= <-]. by apply asarray_raise in Hfirst. }
      rewrite !result_ok.
      destruct (mapM asarray rs) as [others|e2] eqn:Hothers.
      2:{ rewrite result_raise. intros [= <-].
          apply (mapM_raise asarray (fun e => e = ValueError) rs); [|done].
          apply Forall_forall. intros ? _ ?. apply asarray_raise. }
      rewrite result_ok. apply concatenate_raise. }
  rewrite result_ok. revert Hverts. unfold vertex_array, code_array. cbn [py_list].
  destruct (asarray (VList ext)) as [first|] eqn:Hfirst; [|discriminate].
  rewrite !result_ok.
  destruct (mapM asarray rs) as [others|] eqn:Hothers; [|discriminate].
  rewrite result_ok. intros Hcat.
  apply concatenate_trailing in Hcat. apply mapM_Ok_inv in Hothers.
  assert (trailing first = Some []) as Hrank.
  { destruct (proj1 (list_elem_of_lookup _ _) Hin) as [i Hi].
    destruct (Forall2_lookup_l _ _ _ _ _ Hothers Hi) as (b & Hb & Hab).
    rewrite Forall_forall in Hcat.
    specialize (Hcat b (list_elem_of_lookup_2 _ _ _ Hb)).
    injection Hab as <-. by rewrite <- Hcat. }
  rewrite coding_list, bool_decide_true by (destruct ext; [done|simpl; lia]).
  rewrite result_ok, coding_empty_among; [done| |done].
  apply Forall_forall. intros r Hr.
  destruct (proj1 (list_elem_of_lookup _ _) Hr) as [i Hi].
  destruct (Forall2_lookup_l _ _ _ _ _ Hothers Hi) as (b & Hb & Hab).
  rewrite Forall_forall in Hcat.
  specialize (Hcat b (list_elem_of_lookup_2 _ _ _ Hb)).
  apply (asarray_rank_one r b Hab). by rewrite Hcat.
Qed.

(** C9, as the code has it: a Polygon with a non-empty exterior and an
    empty list among its interior rings makes [PolygonPath] raise; the
    ring is not skipped and neither a path nor None comes back.  The
    exception is the ValueError of [concatenate] on the vertex arrays
    whenever these cannot be joined, which is always so for an exterior
    of coordinate pairs (shape (N, 2) against shape (0,)); the
    IndexError of writing MOVETO at index 0 is reached only when the
    vertex arrays could be joined. *)
Theorem PolygonPath_empty_interior_raises p ext rs w :
  returns (geom_type (Polygon p)) (VStr "Polygon") ->
  returns (exterior (Polygon p)) (VList ext) ->
  ext <> [] ->
  returns (interiors (Polygon p)) (VList rs) ->
  VList [] ∈ rs ->
  fst (PolygonPath p w) =
    match vertex_array (VList ext) (VList rs) with
    | Ok _ => Raise IndexError
    | Raise _ => Raise ValueError
    end
  /\ (forall pairs, ext = ring_of pairs -> fst (PolygonPath p w) = Raise ValueError).
Proof.
  intros Hg He Hext Hi Hin.
  rewrite (PolygonPath_rings p _ _ w Hg He eq_refl Hi).
  rewrite path_of_rings_empty_ring by done.
  split; [done|]. intros pairs ->.
  change (VList (ring_of pairs)) with (ring_value pairs).
  rewrite vertex_array_empty_ring; [done| |done].
  by destruct pairs.
Qed.

Lemma PolygonPath_empty_interior_raises_witness :
  fst (PolygonPath (shapely "Polygon" (ring_of square) [ring_of triangle; []]) verbose) =
  Raise ValueError.
Proof.
  apply (PolygonPath_empty_interior_raises
           (shapely "Polygon" (ring_of square) [ring_of triangle; []])
           (ring_of square) [ring_value triangle; VList []] verbose)
    with (pairs := square).
  - intros w. reflexivity.
  - intros w. reflexivity.
  - discriminate.
  - intros w. reflexivity.
  - apply elem_of_cons. right. apply elem_of_cons. left. reflexivity.
  - reflexivity.
Defined.

(** The square with one empty interior ring does not get as far as
    [coding]: the exception is not an IndexError. *)
Lemma PolygonPath_empty_interior_not_IndexError :
  fst (PolygonPath (shapely "Polygon" (ring_of square) [[]]) quiet) = Raise ValueError
  /\ fst (PolygonPath (shapely "Polygon" (ring_of square) [[]]) quiet) <> Raise IndexError
  /\ fst (PolygonPath (geojson "Polygon" [ring_of square; []]) quiet) = Raise ValueError.
Proof. repeat split; try reflexivity. discriminate. Qed.

(** The IndexError does arise when the vertex arrays can be joined, as
    for an exterior written as a flat list of numbers. *)
Example PolygonPath_flat_exterior_IndexError :
  fst (PolygonPath (geojson "Polygon" [[VNum 0; VNum 1]; []]) quiet) = Raise IndexError.
Proof. reflexivity. Qed.

(** ** Independence from the logger *)



(** * Further properties of the module *)

(** ** [PolygonPath] through the answers of the adapter *)

Lemma answer_quiet {A} (m : M A) : oblivious m -> m quiet = (answer m, quiet).
Proof. intros (r & recs & Hm). unfold answer. by rewrite Hm. Qed.

Lemma answer_any {A} (m : M A) w : oblivious m -> fst (m w) = answer m.
Proof. intros Hm. by rewrite (oblivious_quiet m w Hm). Qed.

Lemma run_any {A B} (m : M A) (f : A -> M B) r :
  m quiet = (r, quiet) ->
  (m ≫= f) quiet =
  match r with
  | Ok a => f a quiet
  | Raise e => (Raise e, quiet)
  end.
Proof. intros Hm. unfold mbind, M_bind. rewrite Hm. by destruct r. Qed.

Lemma PolygonPath_answers p w :
  fst (PolygonPath p w) =
  path_of_answers (answer (geom_type (Polygon p)))
                  (answer (exterior (Polygon p)))
                  (answer (interiors (Polygon p))).
Proof.
  rewrite (oblivious_quiet _ w (PolygonPath_oblivious p)).
  pose proof (answer_quiet _ (geom_type_oblivious (Polygon p))) as Hg.
  pose proof (answer_quiet _ (exterior_oblivious (Polygon p))) as He.
  pose proof (answer_quiet _ (interiors_oblivious (Polygon p))) as Hi.
  destruct (answer (geom_type (Polygon p))) as [tag|eg];
    unfold PolygonPath, path_of_answers; cbv zeta;
    rewrite (run_any _ _ _ Hg); run; [|done].
  destruct (negb (eq_str tag "Polygon")).
  { rewrite (run_any _ _ _ Hg). done. }
  destruct (answer (exterior (Polygon p))) as [ext|ee];
    rewrite (run_any _ _ _ He); run; [|done].
  rewrite (run_any _ _ _ He).
  destruct (is_None ext); [done|]. run.
  rewrite (run_any _ _ _ He). run.
  destruct (asarray ext) as [first|e]; run; [|done].
  destruct (answer (interiors (Polygon p))) as [holes|ei];
    rewrite (run_any _ _ _ Hi); run; [|done].
  destruct (py_list holes) as [rs|e] eqn:Hrs; run; [|done].
  destruct (mapM asarray rs) as [others|e]; run; [|done].
  destruct (concatenate (first :: others)) as [verts|e]; run; [|done].
  rewrite (run_any _ _ _ He). run.
  destruct (coding ext) as [c0|e]; run; [|done].
  rewrite (run_any _ _ _ Hi). run. rewrite Hrs. run.
  destruct (mapM coding rs) as [cs|e]; run; [|done].
  destruct (concatenate_codes (c0 :: cs)) as [cds|e]; run; [|done].
  by destruct (Path verts cds) as [path|e].
Qed.

(** ** Every path that comes back is well formed *)

Lemma coding_Ok_inv ob c :
  coding ob = Ok c -> exists n, 1 <= n /\ c = ring_codes n.
Proof.
  unfold coding.
  destruct (len (py_or (getattr_default ob "coords" VNone) ob)) as [n|e];
    [|discriminate].
  rewrite result_ok. unfold ones. rewrite fmap_replicate, length_replicate.
  destruct n as [|n]; [discriminate|].
  rewrite bool_decide_true by lia. intros [= <-].
  exists (S n). split; [lia|].
  unfold ring_codes. cbn [replicate]. simpl. by rewrite Nat.sub_0_r.
Qed.

Lemma mapM_coding_Ok_inv rs cs :
  mapM coding rs = Ok cs ->
  exists sizes, length sizes = length rs
    /\ Forall (fun n => 1 <= n) sizes /\ cs = ring_codes <$> sizes.
Proof.
  intros Hcs. apply mapM_Ok_inv in Hcs.
  induction Hcs as [|r c rs cs Hc _ (sizes & Hlen & Hall & ->)].
  - by exists [].
  - apply coding_Ok_inv in Hc as (n & Hn & ->).
    exists (n :: sizes). rewrite fmap_cons. cbn [length].
    split; [by rewrite Hlen|]. split; [by constructor|done].
Qed.

Lemma Path_Ok_inv verts cds path :
  Path verts cds = Ok path ->
  codes path = cds /\ length (vertices path) = length cds.
Proof.
  unfold Path. destruct (mapM to_float _) as [fs|e]; [|discriminate].
  rewrite result_ok.
  destruct (shape verts) as [|n [|two rest]]; try discriminate.
  destruct two as [|[|[|two]]]; try discriminate.
  destruct rest; try discriminate.
  destruct (mapM vertex (rows verts)) as [vs|e]; [|discriminate].
  rewrite result_ok.
  destruct (bool_decide (length cds = length vs)) eqn:Hlen; [|discriminate].
  apply bool_decide_eq_true in Hlen. cbn [negb].
  destruct cds as [|c cds].
  - by intros [= <-].
  - destruct (bool_decide (c = MOVETO)); [|discriminate]. by intros [= <-].
Qed.

Lemma length_ring_codes_join sizes :
  Forall (fun n => 1 <= n) sizes ->
  length (mjoin (ring_codes <$> sizes)) = sum_list sizes.
Proof.
  induction 1 as [|n sizes Hn _ IH]; [done|].
  rewrite fmap_cons. change (mjoin (?x :: ?l)) with (x ++ mjoin l).
  rewrite length_app, length_ring_codes, IH by done. done.
Qed.

(** Whatever the input, a path that [PolygonPath] returns is a sequence
    of one or more rings of at least one vertex each: it has as many
    codes as vertices, and its codes are, ring after ring, one MOVETO
    followed by LINETOs only. *)
Theorem PolygonPath_result_well_formed p w path :
  fst (PolygonPath p w) = Ok (Some path) ->
  (exists sizes,
     sizes <> []
     /\ Forall (fun n => 1 <= n) sizes
     /\ codes path = mjoin (ring_codes <$> sizes)
     /\ length (vertices path) = sum_list sizes)
  /\ length (vertices path) = length (codes path)
  /\ head (codes path) = Some MOVETO.
Proof.
  intros Hpath.
  assert (exists sizes,
     sizes <> []
     /\ Forall (fun n => 1 <= n) sizes
     /\ codes path = mjoin (ring_codes <$> sizes)
     /\ length (vertices path) = sum_list sizes) as Hrings.
  { rewrite PolygonPath_answers in Hpath. revert Hpath. unfold path_of_answers.
    destruct (answer (geom_type (Polygon p))) as [tag|]; [|discriminate].
    rewrite result_ok. destruct (negb (eq_str tag "Polygon")); [discriminate|].
    destruct (answer (exterior (Polygon p))) as [ext|]; [|discriminate].
    rewrite result_ok. destruct (is_None ext); [discriminate|].
    destruct (asarray ext) as [first|]; [|discriminate]. rewrite result_ok.
    destruct (answer (interiors (Polygon p))) as [holes|]; [|discriminate].
    rewrite !result_ok.
    destruct (py_list holes) as [rs|] eqn:Hrs; [|discriminate]. rewrite !result_ok.
    destruct (mapM asarray rs) as [others|]; [|discriminate]. rewrite result_ok.
    destruct (concatenate (first :: others)) as [verts|]; [|discriminate].
    rewrite result_ok.
    destruct (coding ext) as [c0|] eqn:Hc0; [|discriminate].
    rewrite !result_ok, Hrs, result_ok.
    destruct (mapM coding rs) as [cs|] eqn:Hcs; [|discriminate]. rewrite result_ok.
    cbn [concatenate_codes]. rewrite result_ok.
    destruct (Path verts (mjoin (c0 :: cs))) as [path'|] eqn:HP; [|discriminate].
    rewrite result_ok. intros [= <-].
    apply Path_Ok_inv in HP as [Hcodes Hlen].
    apply coding_Ok_inv in Hc0 as (n & Hn & ->).
    apply mapM_coding_Ok_inv in Hcs as (sizes & _ & Hall & ->).
    exists (n :: sizes). split; [done|]. split; [by constructor|].
    rewrite fmap_cons. split; [done|].
    rewrite Hlen, <- (fmap_cons ring_codes).
    apply length_ring_codes_join. by constructor. }
  split; [exact Hrings|].
  destruct Hrings as (sizes & Hne & Hall & Hcodes & Hlen).
  split.
  - by rewrite Hcodes, length_ring_codes_join.
  - rewrite Hcodes. destruct sizes as [|n sizes]; [done|]. by rewrite fmap_cons.
Qed.

Lemma PolygonPath_result_well_formed_witness :
  head (codes (mkPath (square ++ triangle)
                 (ring_codes 4 ++ ring_codes 3))) = Some MOVETO.
Proof.
  apply (PolygonPath_result_well_formed
           (geojson "Polygon" [ring_of square; ring_of triangle]) verbose).
  reflexivity.
Defined.

(** ** When nothing is returned *)

Lemma answer_returns {A} (m : M A) a :
  oblivious m -> answer m = Ok a <-> returns m a.
Proof.
  intros Hm. split.
  - intros Ha w'. by rewrite (answer_any m w' Hm).
  - intros Hr. apply (Hr quiet).
Qed.

Lemma some_path_not_None {A B} (a : result A) (b : result B)
    (c : A -> B -> result Path_t) :
  (v ← a; d ← b; path ← c v d; mret (Some path)) <> Ok None.
Proof.
  destruct a as [v|]; [rewrite result_ok|by rewrite result_raise].
  destruct b as [d|]; [rewrite result_ok|by rewrite result_raise].
  destruct (c v d); [by rewrite result_ok|by rewrite result_raise].
Qed.

Lemma is_None_true v : is_None v = true -> v = VNone.
Proof. by destruct v. Qed.

(** [PolygonPath] returns None exactly when the adapter reports the type
    "Polygon" and a None exterior; [PolygonPatch] returns None exactly
    when [PolygonPath] does.  In particular an empty list as exterior
    never yields None. *)
Theorem PolygonPath_None_iff p kw w :
  (fst (PolygonPath p w) = Ok None <->
   returns (geom_type (Polygon p)) (VStr "Polygon")
   /\ returns (exterior (Polygon p)) VNone)
  /\ (fst (PolygonPatch p kw w) = Ok None <-> fst (PolygonPath p w) = Ok None).
Proof.
  split.
  - rewrite <- !answer_returns by auto with oblivious.
    rewrite PolygonPath_answers. unfold path_of_answers. split.
    + destruct (answer (geom_type (Polygon p))) as [tag|]; [|discriminate].
      rewrite result_ok. destruct (eq_str tag "Polygon") eqn:Htag; [|discriminate].
      apply eq_str_true in Htag as ->. cbn [negb].
      destruct (answer (exterior (Polygon p))) as [ext|]; [|discriminate].
      rewrite result_ok. destruct (is_None ext) eqn:Hext.
      * apply is_None_true in Hext as ->. done.
      * intros Hnone. by apply some_path_not_None in Hnone.
    + by intros [-> ->].
  - rewrite PolygonPatch_of_path.
    destruct (fst (PolygonPath p w)) as [[pp|]|e]; split; done.
Qed.

(** ** A mapping whose exterior ring is an empty list *)

Lemma vertex_array_raise ext rs e :
  vertex_array (VList ext) (VList rs) = Raise e -> e = ValueError.
Proof.
  unfold vertex_array. cbn [py_list].
  destruct (asarray (VList ext)) as [first|e1] eqn:Hfirst.
  2:{ rewrite result_raise. intros [= <-]. by apply asarray_raise in Hfirst. }
  rewrite !result_ok.
  destruct (mapM asarray rs) as [others|e2] eqn:Hothers.
  2:{ rewrite result_raise. intros [= <-].
      apply (mapM_raise asarray (fun e => e = ValueError) rs); [|done].
      apply Forall_forall. intros ? _ ?. apply asarray_raise. }
  rewrite result_ok. apply concatenate_raise.
Qed.

Lemma path_of_answers_rings ext holes :
  is_None ext = false ->
  path_of_answers (Ok (VStr "Polygon")) (Ok ext) (Ok holes) = path_of_rings ext holes.
Proof.
  intros Hext. unfold path_of_answers, path_of_rings, vertex_array, code_array.
  rewrite result_ok. change (eq_str (VStr "Polygon") "Polygon") with true.
  cbn [negb]. rewrite result_ok, Hext.
  destruct (asarray ext) as [first|]; rewrite ?result_ok, ?result_raise; [|done].
  destruct (py_list holes) as [rs|] eqn:Hrs; rewrite ?result_ok, ?result_raise; [|done].
  destruct (mapM asarray rs) as [others|]; rewrite ?result_ok, ?result_raise; [|done].
  destruct (concatenate (first :: others)) as [verts|];
    rewrite ?result_ok, ?result_raise; [|done].
  destruct (coding ext) as [c0|]; rewrite ?result_ok, ?result_raise; [|done].
  by rewrite Hrs, result_ok.
Qed.

(** A mapping of type "Polygon" whose first ring is the empty list does
    not count as "no geometry": [PolygonPath] raises, the ValueError of
    the vertex stage if that fails, else the IndexError of [coding] on
    the empty exterior; with no further rings it is the IndexError.
    [PolygonPatch] raises the same. *)
Theorem mapping_empty_exterior_raises entries holes kw w :
  assoc "type" entries = Some (VStr "Polygon") ->
  assoc "coordinates" entries = Some (VList (VList [] :: holes)) ->
  fst (PolygonPath (VDict entries) w) =
    match vertex_array (VList []) (VList holes) with
    | Ok _ => Raise IndexError
    | Raise _ => Raise ValueError
    end
  /\ fst (PolygonPatch (VDict entries) kw w) =
    match vertex_array (VList []) (VList holes) with
    | Ok _ => Raise IndexError
    | Raise _ => Raise ValueError
    end
  /\ (holes = [] -> fst (PolygonPath (VDict entries) w) = Raise IndexError).
Proof.
  intros Htype Hcoords.
  assert (fst (PolygonPath (VDict entries) w) =
    match vertex_array (VList []) (VList holes) with
    | Ok _ => Raise IndexError
    | Raise _ => Raise ValueError
    end) as Hpath.
  { rewrite PolygonPath_answers, Polygon_dict.
    unfold answer, geom_type, exterior, interiors.
    cbn [_is_shapely context py_get lift fst]. rewrite Htype, Hcoords.
    rewrite !result_ok. cbn [subscript slice_from lookup list_lookup].
    change (drop 1 (VList [] :: holes)) with holes.
    rewrite path_of_answers_rings by done.
    unfold path_of_rings.
    destruct (vertex_array (VList []) (VList holes)) as [verts|e] eqn:Hverts.
    - rewrite result_ok. unfold code_array. by rewrite coding_list.
    - rewrite result_raise. by apply vertex_array_raise in Hverts as ->. }
  split; [exact Hpath|]. split.
  - rewrite PolygonPatch_of_path, Hpath.
    by destruct (vertex_array (VList []) (VList holes)).
  - intros ->. by rewrite Hpath.
Qed.

Lemma mapping_empty_exterior_raises_witness :
  fst (PolygonPath (geojson "Polygon" [[]]) verbose) = Raise IndexError.
Proof.
  apply (mapping_empty_exterior_raises
           [("type", VStr "Polygon"); ("coordinates", VList [VList []])]
           [] [] verbose); reflexivity.
Defined.

(** ** What the attribute-based accessors hand out *)

Lemma mapM_coords_lists (its lists : list value) :
  mapM (M:=result) (fun interior =>
          coords ← getattr interior "coords";
          l ← py_list coords;
          mret (VList l)) its = Ok lists ->
  exists ls : list (list value), lists = VList <$> ls.
Proof.
  intros Hm. apply mapM_Ok_inv in Hm.
  induction Hm as [|it v its lists Hv _ [ls ->]]; [by exists []|].
  destruct (getattr it "coords") as [c|]; [|discriminate]. rewrite result_ok in Hv.
  destruct (py_list c) as [l|]; [|discriminate]. rewrite result_ok in Hv.
  injection Hv as <-. by exists (l :: ls).
Qed.

(** For an attribute-based adapter, [exterior] never hands out an empty
    list (it is None or a list with a first point), and [interiors],
    when it returns, is a list whose items are themselves lists. *)
Theorem shapely_accessors_normalised self w :
  _is_shapely self = true ->
  (forall v, fst (exterior self w) = Ok v ->
     v = VNone \/ exists x l, v = VList (x :: l))
  /\ (forall v, fst (interiors self w) = Ok v -> exists ls, v = VList (VList <$> ls)).
Proof.
  intros Hkind. split; intros v.
  - unfold exterior. rewrite Hkind. unfold mbind at 1, M_bind. cbn [log_debug].
    rewrite run_lift.
    destruct (_ ≫= _) as [[|x l]|e].
    + cbn. intros [= <-]. by left.
    + cbn. intros [= <-]. right. by eexists _, _.
    + discriminate.
  - unfold interiors. rewrite Hkind. unfold mbind at 1, M_bind. cbn [log_debug].
    unfold lift. cbn [fst].
    destruct (getattr (context self) "interiors") as [holes|]; [|discriminate].
    rewrite result_ok. destruct (py_list holes) as [its|]; [|discriminate].
    rewrite result_ok.
    destruct (mapM _ its) as [lists|] eqn:Hlists; [|discriminate].
    rewrite result_ok. intros [= <-].
    apply mapM_coords_lists in Hlists as [ls ->]. by exists ls.
Qed.

Lemma shapely_accessors_normalised_witness :
  exists ls, VList [VList (ring_of triangle)] = VList (VList <$> ls).
Proof.
  apply (shapely_accessors_normalised
           (Polygon (shapely "Polygon" (ring_of square) [ring_of triangle])) verbose).
  - reflexivity.
  - reflexivity.
Defined.

(** ** Inputs the adapter cannot read *)

(** Handing over something that is neither a mapping nor an object (None,
    a string, a number, a bare list of coordinates) ends in
    AttributeError: the value is kept as if it were a mapping and has no
    [get]; nothing is logged. *)
Theorem PolygonPath_not_a_mapping p kw w :
  (forall entries, p <> VDict entries) ->
  (forall attrs, p <> VObj attrs) ->
  PolygonPath p w = (Raise (AttributeError "get"), w)
  /\ PolygonPatch p kw w = (Raise (AttributeError "get"), w).
Proof.
  intros Hdict Hobj. destruct p as [| | | |entries|attrs]; try done.
  - by destruct (Hdict entries).
  - by destruct (Hobj attrs).
Qed.

Lemma PolygonPath_not_a_mapping_witness :
  PolygonPath (VList (ring_of square)) verbose = (Raise (AttributeError "get"), verbose)
  /\ PolygonPatch (VList (ring_of square)) [] verbose
     = (Raise (AttributeError "get"), verbose).
Proof.
  apply (PolygonPath_not_a_mapping (VList (ring_of square)) [] verbose); discriminate.
Defined.

Lemma hasattr_getattr ob name :
  hasattr ob name = false -> getattr ob name = Raise (AttributeError name).
Proof.
  unfold hasattr, getattr. destruct ob; try done.
  by destruct (assoc name attrs).
Qed.

Lemma hasattr_kind p :
  hasattr p "interiors" = true \/ hasattr p "exterior" = true ->
  Polygon p = mkPolygon true p.
Proof. unfold Polygon. intros [-> | ->]; [done|by rewrite orb_true_r]. Qed.

(** An object is taken as attribute-based as soon as it has one of
    [interiors] and [exterior]; what it lacks then surfaces as an
    AttributeError naming the attribute: [geom_type] first, then
    [exterior], and [interiors] once a non-empty exterior of coordinate
    pairs has been read. *)
Theorem shapely_missing_attribute p w :
  hasattr p "interiors" = true \/ hasattr p "exterior" = true ->
  (hasattr p "geom_type" = false ->
   fst (PolygonPath p w) = Raise (AttributeError "geom_type"))
  /\ (getattr p "geom_type" = Ok (VStr "Polygon") ->
      hasattr p "exterior" = false ->
      fst (PolygonPath p w) = Raise (AttributeError "exterior"))
  /\ (forall ext,
        getattr p "geom_type" = Ok (VStr "Polygon") ->
        returns (exterior (Polygon p)) (ring_value ext) ->
        1 <= length ext ->
        hasattr p "interiors" = false ->
        fst (PolygonPath p w) = Raise (AttributeError "interiors")).
Proof.
  intros Hkind. apply hasattr_kind in Hkind.
  assert (answer (geom_type (Polygon p)) = getattr p "geom_type") as Hg
    by by rewrite Hkind.
  split; [|split].
  - intros Hno%hasattr_getattr.
    by rewrite PolygonPath_answers, Hg, Hno.
  - intros Htag Hno%hasattr_getattr.
    rewrite PolygonPath_answers, Hg, Htag.
    assert (answer (exterior (Polygon p)) = Raise (AttributeError "exterior")) as ->.
    { rewrite Hkind. unfold answer, exterior. cbn [_is_shapely context].
      unfold mbind at 1, M_bind. cbn [log_debug]. rewrite run_lift.
      by rewrite Hno, result_raise. }
    done.
  - intros ext Htag Hext Hlen Hno%hasattr_getattr.
    rewrite PolygonPath_answers, Hg, Htag.
    apply answer_returns in Hext; [|auto with oblivious]. rewrite Hext.
    assert (answer (interiors (Polygon p)) = Raise (AttributeError "interiors")) as ->.
    { rewrite Hkind. unfold answer, interiors. cbn [_is_shapely context].
      unfold mbind at 1, M_bind. cbn [log_debug]. unfold lift. cbn [fst].
      by rewrite Hno, result_raise. }
    unfold path_of_answers. rewrite !result_ok.
    change (eq_str (VStr "Polygon") "Polygon") with true. cbn [negb is_None ring_value].
    change (VList (ring_of ext)) with (ring_value ext).
    rewrite asarray_ring by (by destruct ext; [simpl in Hlen; lia|]).
    by rewrite result_ok, result_raise, result_raise.
Qed.

Lemma shapely_missing_attribute_witness :
  fst (PolygonPath (VObj [("geom_type", VStr "Polygon");
                          ("exterior", ring_ob (ring_of square))]) verbose)
  = Raise (AttributeError "interiors").
Proof.
  apply (shapely_missing_attribute
           (VObj [("geom_type", VStr "Polygon");
                  ("exterior", ring_ob (ring_of square))]) verbose)
    with (ext := square).
  - right. reflexivity.
  - reflexivity.
  - intros w. reflexivity.
  - simpl. lia.
  - reflexivity.
Defined.

(** ** What reaches the logger *)

Lemma run_log_any msg {B} (f : unit -> M B) w :
  (log_debug msg ≫= f) w = f tt (emit [msg] w).
Proof. done. Qed.

Lemma geom_type_evaluates self :
  evaluates (geom_type self) (answer (geom_type self))
    (if _is_shapely self then [[Lit "returning shapely geom type"]] else []).
Proof.
  intros w. unfold answer, geom_type.
  destruct (_is_shapely self); [done|]. by rewrite emit_nil.
Qed.

Lemma exterior_evaluates self :
  evaluates (exterior self) (answer (exterior self))
    (if _is_shapely self then [[Lit "returning shapely exterior"]] else []).
Proof.
  intros w. unfold answer, exterior. destruct (_is_shapely self).
  - rewrite !run_log_any, !run_lift.
    match goal with
    | |- context [match ?x with Ok _ => _ | Raise _ => _ end] => destruct x as [l|e]
    end; [|done].
    by destruct (bool_decide _).
  - by rewrite emit_nil.
Qed.

Lemma interiors_evaluates self :
  evaluates (interiors self) (answer (interiors self))
    (if _is_shapely self then [[Lit "returning shapely interiors"]] else []).
Proof.
  intros w. unfold answer, interiors.
  destruct (_is_shapely self); [done|]. by rewrite emit_nil.
Qed.

Lemma run_evaluates {A B} (m : M A) (f : A -> M B) r recs w :
  evaluates m r recs ->
  (m ≫= f) w =
  match r with
  | Ok a => f a (emit recs w)
  | Raise e => (Raise e, emit recs w)
  end.
Proof. intros Hm. unfold mbind, M_bind. rewrite Hm. by destruct r. Qed.

(** A call that returns a path has asked the adapter for the type once,
    for the exterior four times and for the interiors twice.  With an
    attribute-based input the logger so receives eight records, in the
    order given; with a mapping-based input it receives one, the
    exterior. *)
Theorem PolygonPath_records p ext path w :
  returns (exterior (Polygon p)) ext ->
  fst (PolygonPath p w) = Ok (Some path) ->
  snd (PolygonPath p w) =
  emit (if _is_shapely (Polygon p)
        then [[Lit "returning shapely geom type"];
              [Lit "returning shapely exterior"];
              [Lit "exterior: "; Fmt ext];
              [Lit "returning shapely exterior"];
              [Lit "returning shapely exterior"];
              [Lit "returning shapely interiors"];
              [Lit "returning shapely exterior"];
              [Lit "returning shapely interiors"]]
        else [[Lit "exterior: "; Fmt ext]]) w.
Proof.
  intros Hext%answer_returns; [|auto with oblivious].
  pose proof (geom_type_evaluates (Polygon p)) as Hg.
  pose proof (exterior_evaluates (Polygon p)) as He.
  pose proof (interiors_evaluates (Polygon p)) as Hi.
  rewrite Hext in He.
  unfold PolygonPath. cbv zeta.
  destruct (answer (geom_type (Polygon p))) as [tag|];
    rewrite (run_evaluates _ _ _ _ _ Hg); [|discriminate].
  destruct (negb (eq_str tag "Polygon")).
  { rewrite (run_evaluates _ _ _ _ _ Hg). discriminate. }
  rewrite (run_evaluates _ _ _ _ _ He), run_log_any, (run_evaluates _ _ _ _ _ He).
  destruct (is_None ext); [discriminate|].
  rewrite ?run_assoc, (run_evaluates _ _ _ _ _ He).
  rewrite ?run_assoc, run_lift.
  destruct (asarray ext) as [first|]; [|discriminate].
  rewrite ?run_assoc.
  destruct (answer (interiors (Polygon p))) as [holes|];
    rewrite (run_evaluates _ _ _ _ _ Hi); [|discriminate].
  rewrite ?run_assoc, run_lift.
  destruct (_ ≫= _) as [others|]; [|discriminate].
  rewrite ?run_assoc, run_lift.
  destruct (concatenate (first :: others)) as [verts|]; [|discriminate].
  rewrite ?run_assoc, (run_evaluates _ _ _ _ _ He).
  rewrite ?run_assoc, run_lift.
  destruct (coding ext) as [c0|]; [|discriminate].
  rewrite ?run_assoc, (run_evaluates _ _ _ _ _ Hi).
  rewrite ?run_assoc, run_lift.
  destruct (_ ≫= _) as [cs|]; [|discriminate].
  rewrite ?run_assoc, run_lift. cbn [concatenate_codes].
  rewrite run_lift.
  destruct (Path verts (mjoin (c0 :: cs))) as [path'|]; [|discriminate].
  intros _. cbn [snd mret M_ret]. rewrite !emit_emit.
  by destruct (_is_shapely (Polygon p)).
Qed.

Lemma PolygonPath_records_witness :
  records (snd (PolygonPath (geojson "Polygon" [ring_of square]) verbose)) =
  [[Lit "exterior: "; Fmt (ring_value square)]].
Proof.
  rewrite (PolygonPath_records (geojson "Polygon" [ring_of square])
             (ring_value square) (mkPath square (ring_codes 4)) verbose).
  - reflexivity.
  - intros w. reflexivity.
  - reflexivity.
Defined.

(** ** What the call depends on *)

(** Of an attribute-based object only [geom_type], [exterior] and
    [interiors] are ever read: two objects that agree on these three get
    the same outcome and the same log.  A [__geo_interface__] on such an
    object is never consulted. *)
Theorem shapely_reads_three_attributes attrs1 attrs2 kw w :
  hasattr (VObj attrs1) "interiors" = true \/ hasattr (VObj attrs1) "exterior" = true ->
  assoc "geom_type" attrs1 = assoc "geom_type" attrs2 ->
  assoc "exterior" attrs1 = assoc "exterior" attrs2 ->
  assoc "interiors" attrs1 = assoc "interiors" attrs2 ->
  PolygonPath (VObj attrs1) w = PolygonPath (VObj attrs2) w
  /\ PolygonPatch (VObj attrs1) kw w = PolygonPatch (VObj attrs2) kw w.
Proof.
  intros Hkind Hg He Hi.
  assert (hasattr (VObj attrs2) "interiors" = true
          \/ hasattr (VObj attrs2) "exterior" = true) as Hkind'.
  { revert Hkind. unfold hasattr, getattr. by rewrite He, Hi. }
  apply hasattr_kind in Hkind, Hkind'.
  assert (PolygonPath (VObj attrs1) = PolygonPath (VObj attrs2)) as Hpath.
  { unfold PolygonPath. rewrite Hkind, Hkind'. cbv zeta.
    unfold geom_type, exterior, interiors. cbn [_is_shapely context getattr].
    by rewrite Hg, He, Hi. }
  split; [by rewrite Hpath|]. unfold PolygonPatch. by rewrite Hpath.
Qed.

Lemma shapely_reads_three_attributes_witness :
  PolygonPath (VObj [("__geo_interface__", geojson "MultiPolygon" []);
                     ("geom_type", VStr "Polygon");
                     ("exterior", ring_ob (ring_of square));
                     ("interiors", VList [])]) verbose
  = PolygonPath (shapely "Polygon" (ring_of square) []) verbose.
Proof.
  apply (shapely_reads_three_attributes
           [("__geo_interface__", geojson "MultiPolygon" []);
            ("geom_type", VStr "Polygon");
            ("exterior", ring_ob (ring_of square));
            ("interiors", VList [])]
           [("geom_type", VStr "Polygon");
            ("exterior", ring_ob (ring_of square));
            ("interiors", VList [])] [] verbose).
  - left. reflexivity.
  - reflexivity.
  - reflexivity.
  - reflexivity.
Defined.

(** Of a mapping only the entries "type" and "coordinates" are read: two
    mappings that agree on both get the same outcome and the same
    log. *)
Theorem mapping_reads_two_keys entries1 entries2 kw w :
  assoc "type" entries1 = assoc "type" entries2 ->
  assoc "coordinates" entries1 = assoc "coordinates" entries2 ->
  PolygonPath (VDict entries1) w = PolygonPath (VDict entries2) w
  /\ PolygonPatch (VDict entries1) kw w = PolygonPatch (VDict entries2) kw w.
Proof.
  intros Ht Hc.
  assert (PolygonPath (VDict entries1) = PolygonPath (VDict entries2)) as Hpath.
  { unfold PolygonPath. rewrite !Polygon_dict. cbv zeta.
    unfold geom_type, exterior, interiors. cbn [_is_shapely context py_get].
    by rewrite Ht, Hc. }
  split; [by rewrite Hpath|]. unfold PolygonPatch. by rewrite Hpath.
Qed.

Lemma mapping_reads_two_keys_witness :
  PolygonPath (VDict [("bbox", VList []); ("type", VStr "Polygon");
                      ("coordinates", VList [ring_value square])]) verbose
  = PolygonPath (geojson "Polygon" [ring_of square]) verbose.
Proof.
  apply (mapping_reads_two_keys
           [("bbox", VList []); ("type", VStr "Polygon");
            ("coordinates", VList [ring_value square])]
           [("type", VStr "Polygon"); ("coordinates", VList [ring_value square])]
           [] verbose); reflexivity.
Defined.

(** What [__geo_interface__] yields is stored and read as a mapping, and
    never looked at for attributes again: when it is a dict the call is
    the call on that dict; when it is an object, however Shapely-like,
    the call fails on the first [get], with nothing logged. *)
Theorem geo_interface_product_is_a_mapping p geo w :
  hasattr p "interiors" = false ->
  hasattr p "exterior" = false ->
  getattr p "__geo_interface__" = Ok geo ->
  (forall entries, geo = VDict entries -> PolygonPath p w = PolygonPath geo w)
  /\ (forall attrs, geo = VObj attrs ->
        PolygonPath p w =
        (Raise (match assoc "get" attrs with
                | Some _ => TypeError
                | None => AttributeError "get"
                end), w)).
Proof.
  intros Hi He Hgeo.
  assert (Polygon p = mkPolygon false geo) as Hp.
  { unfold Polygon. by rewrite Hi, He, Hgeo. }
  split.
  - intros entries ->. unfold PolygonPath. by rewrite Hp, Polygon_dict.
  - intros attrs ->. unfold PolygonPath. rewrite Hp. cbv zeta.
    unfold mbind at 1, M_bind. unfold geom_type. cbn [_is_shapely context py_get lift].
    by destruct (assoc "get" attrs).
Qed.

Lemma geo_interface_product_is_a_mapping_witness :
  PolygonPath (VObj [("__geo_interface__", shapely "Polygon" (ring_of square) [])]) verbose
  = (Raise (AttributeError "get"), verbose).
Proof.
  destruct (geo_interface_product_is_a_mapping
              (VObj [("__geo_interface__", shapely "Polygon" (ring_of square) [])])
              (shapely "Polygon" (ring_of square) []) verbose) as [_ Hobj].
  - reflexivity.
  - reflexivity.
  - reflexivity.
  - apply (Hobj [("geom_type", VStr "Polygon");
                 ("exterior", ring_ob (ring_of square));
                 ("interiors", VList [])]).
    reflexivity.
Defined.

(** ** The codes of one ring *)

(** [coding] takes the length from [ob.coords] when that is there and
    truthy, and from [ob] otherwise.  So an object with a non-empty
    list under [coords] gets one MOVETO and then LINETOs, as many codes
    as it has coordinates; but an object whose [coords] is empty (or
    otherwise falsy) is itself passed to [len] and ends in TypeError,
    not in the IndexError of an empty list. *)
Theorem coding_of_coords attrs coords :
  assoc "coords" attrs = Some coords ->
  (forall x l, coords = VList (x :: l) ->
     coding (VObj attrs) = Ok (MOVETO :: replicate (length l) LINETO))
  /\ (truthy coords = false -> coding (VObj attrs) = Raise TypeError)
  /\ coding (VList []) = Raise IndexError.
Proof.
  intros Hcoords. unfold coding, getattr_default, getattr. rewrite Hcoords.
  split; [|split].
  - intros x l ->. unfold py_or. cbn [truthy length len].
    rewrite bool_decide_false by lia. cbn [negb len].
    rewrite result_ok. unfold ones. rewrite fmap_replicate, length_replicate.
    rewrite bool_decide_true by (cbn [length]; lia). done.
  - intros Hfalsy. unfold py_or. by rewrite Hfalsy.
  - done.
Qed.

Lemma coding_of_coords_witness :
  coding (ring_ob (ring_of square)) = Ok [MOVETO; LINETO; LINETO; LINETO]
  /\ coding (ring_ob []) = Raise TypeError.
Proof.
  split.
  - apply (proj1 (coding_of_coords [("coords", VList (ring_of square))]
                    (VList (ring_of square)) eq_refl)
             (pt 0 0) [pt 1 0; pt 1 1; pt 0 1]).
    reflexivity.
  - apply (coding_of_coords [("coords", VList [])] (VList []) eq_refl).
    reflexivity.
Defined.

(** ** Points that are not pairs *)

Lemma forallb_scalar_shapes (c : list float) (s : list nat) :
  s = [] ->
  forallb (fun y => match shape_of y with
                    | Ok s' => bool_decide (s' = s)
                    | Raise _ => false
                    end) (VNum <$> c) = true.
Proof.
  intros ->. induction c as [|x c IH]; [done|]. rewrite fmap_cons. exact IH.
Qed.

Lemma shape_of_cons x rest :
  shape_of (VList (x :: rest)) =
  match shape_of x with
  | Ok s =>
      if forallb (fun y => match shape_of y with
                           | Ok s' => bool_decide (s' = s)
                           | Raise _ => false
                           end) rest
      then Ok (length (x :: rest) :: s)
      else Raise ValueError
  | Raise e => Raise e
  end.
Proof. done. Qed.

Lemma shape_of_point c : shape_of (point_of c) = Ok [length c].
Proof.
  unfold point_of. destruct c as [|x c]; [done|].
  rewrite fmap_cons, shape_of_cons.
  change (shape_of (VNum x)) with (Ok (A:=list nat) []). cbv beta iota.
  rewrite forallb_scalar_shapes by done. cbn [length]. by rewrite length_fmap.
Qed.

Lemma forallb_point_shapes d (r : list (list float)) :
  Forall (fun c => length c = d) r ->
  forallb (fun y => match shape_of y with
                    | Ok s' => bool_decide (s' = [d])
                    | Raise _ => false
                    end) (point_of <$> r) = true.
Proof.
  induction 1 as [|c r Hc _ IH]; [done|].
  rewrite fmap_cons. cbn [forallb]. rewrite shape_of_point, Hc, IH.
  by rewrite bool_decide_true.
Qed.

Lemma asarray_points d (r : list (list float)) :
  r <> [] ->
  Forall (fun c => length c = d) r ->
  asarray (VList (point_of <$> r)) = Ok (mkArray [length r; d] (VList (point_of <$> r))).
Proof.
  destruct r as [|c r]; [done|]. intros _ Hall.
  apply Forall_cons in Hall as [Hc Hall].
  unfold asarray. rewrite fmap_cons, shape_of_cons.
  rewrite shape_of_point, Hc, (forallb_point_shapes d r Hall), result_ok.
  cbn [length]. by rewrite length_fmap.
Qed.

Lemma scalars_points (r : list (list float)) :
  exists fs, mapM to_float (flat_map scalars (point_of <$> r)) = Ok fs.
Proof.
  induction r as [|c r [fs IH]]; [by eexists|].
  rewrite fmap_cons. cbn [flat_map].
  induction c as [|x c [fs' IHc]].
  - by exists fs.
  - unfold point_of in *. rewrite fmap_cons. cbn [scalars flat_map app mapM] in *.
    change (to_float (VNum x)) with (Ok x).
    rewrite result_ok, IHc, result_ok. by eexists.
Qed.

(** A polygon whose points have other than two coordinates (as a
    Shapely polygon with z values has) gets through both arrays and is
    then refused by [Path]: [PolygonPath] raises ValueError. *)
Theorem PolygonPath_points_not_pairs p d ext holes w :
  returns (geom_type (Polygon p)) (VStr "Polygon") ->
  returns (exterior (Polygon p)) (VList (point_of <$> ext)) ->
  returns (interiors (Polygon p))
    (VList ((fun h => VList (point_of <$> h)) <$> holes)) ->
  1 <= length ext ->
  Forall (fun h => 1 <= length h) holes ->
  Forall (fun c => length c = d) ext ->
  Forall (Forall (fun c => length c = d)) holes ->
  d <> 2 ->
  fst (PolygonPath p w) = Raise ValueError.
Proof.
  intros Hg He Hi Hext Hholes Hd Hds Hne.
  assert (forall r : list (list float), 1 <= length r -> r <> []) as Hnil.
  { intros [|] ?; [simpl in *; lia|done]. }
  rewrite (PolygonPath_rings p _ _ w Hg He eq_refl Hi).
  unfold path_of_rings, vertex_array, code_array. cbn [py_list].
  rewrite (asarray_points d) by auto. rewrite !result_ok.
  rewrite (mapM_Ok asarray (fun h => VList (point_of <$> h))
             (fun h => mkArray [length h; d] (VList (point_of <$> h)))), result_ok.
  2:{ apply Forall_forall. intros h Hh.
      rewrite Forall_forall in Hholes, Hds. apply asarray_points; auto. }
  assert (concatenate
            (mkArray [length ext; d] (VList (point_of <$> ext))
             :: ((fun h => mkArray [length h; d] (VList (point_of <$> h))) <$> holes))
          = Ok (mkArray [length (point_of <$> ext ++ mjoin holes); d]
                        (VList (point_of <$> ext ++ mjoin holes)))) as ->.
  { unfold concatenate. cbn [trailing shape].
    assert (forallb (fun b => bool_decide (trailing b = Some [d]))
              ((fun h => mkArray [length h; d] (VList (point_of <$> h))) <$> holes)
            = true) as ->.
    { clear. induction holes as [|h holes IH]; [done|]. rewrite fmap_cons.
      cbn [forallb trailing shape]. by rewrite bool_decide_true. }
    assert (mjoin (rows <$> mkArray [length ext; d] (VList (point_of <$> ext))
                   :: ((fun h => mkArray [length h; d] (VList (point_of <$> h))) <$> holes))
            = point_of <$> ext ++ mjoin holes) as ->; [|done].
    rewrite fmap_cons, fmap_app. change (mjoin (?x :: ?l)) with (x ++ mjoin l).
    f_equal. clear. induction holes as [|h holes IH]; [done|].
    rewrite !fmap_cons. change (mjoin (?x :: ?l)) with (x ++ mjoin l).
    by rewrite fmap_app, IH. }
  rewrite result_ok, coding_list, !length_fmap.
  rewrite bool_decide_true by lia. rewrite result_ok.
  rewrite (mapM_Ok coding (fun h => VList (point_of <$> h))
             (fun h => ring_codes (length h))), !result_ok.
  2:{ apply Forall_forall. intros h Hh. rewrite Forall_forall in Hholes.
      rewrite coding_list, length_fmap.
      by rewrite bool_decide_true by (apply Hholes, Hh). }
  cbn [concatenate_codes]. rewrite result_ok.
  unfold Path. cbn [data shape scalars].
  destruct (scalars_points (ext ++ mjoin holes)) as [fs ->]. rewrite result_ok.
  destruct d as [|[|[|d]]]; done.
Qed.

Lemma PolygonPath_points_not_pairs_witness :
  fst (PolygonPath (shapely "Polygon"
                      (point_of <$> [[0; 0; 1]; [1; 0; 1]; [1; 1; 1]]%float) []) verbose)
  = Raise ValueError.
Proof.
  apply (PolygonPath_points_not_pairs _ 3
           [[0; 0; 1]; [1; 0; 1]; [1; 1; 1]]%float [] verbose).
  - intros w. reflexivity.
  - intros w. reflexivity.
  - intros w. reflexivity.
  - simpl. lia.
  - constructor.
  - repeat constructor.
  - constructor.
  - discriminate.
Defined.

(** ** One sub-path per ring *)

Lemma PolygonPath_Ok_inv p w path :
  fst (PolygonPath p w) = Ok (Some path) ->
  exists holes rs n sizes,
    answer (interiors (Polygon p)) = Ok holes
    /\ py_list holes = Ok rs
    /\ length sizes = length rs
    /\ Forall (fun k => 1 <= k) (n :: sizes)
    /\ codes path = mjoin (ring_codes <$> n :: sizes).
Proof.
  rewrite PolygonPath_answers. unfold path_of_answers.
  destruct (answer (geom_type (Polygon p))) as [tag|]; [|discriminate].
  rewrite result_ok. destruct (negb (eq_str tag "Polygon")); [discriminate|].
  destruct (answer (exterior (Polygon p))) as [ext|]; [|discriminate].
  rewrite result_ok. destruct (is_None ext); [discriminate|].
  destruct (asarray ext) as [first|]; [|discriminate]. rewrite result_ok.
  destruct (answer (interiors (Polygon p))) as [holes|]; [|discriminate].
  rewrite !result_ok.
  destruct (py_list holes) as [rs|] eqn:Hrs; [|discriminate]. rewrite !result_ok.
  destruct (mapM asarray rs) as [others|]; [|discriminate]. rewrite result_ok.
  destruct (concatenate (first :: others)) as [verts|]; [|discriminate].
  rewrite result_ok.
  destruct (coding ext) as [c0|] eqn:Hc0; [|discriminate].
  rewrite !result_ok, Hrs, result_ok.
  destruct (mapM coding rs) as [cs|] eqn:Hcs; [|discriminate]. rewrite result_ok.
  cbn [concatenate_codes]. rewrite result_ok.
  destruct (Path verts (mjoin (c0 :: cs))) as [path'|] eqn:HP; [|discriminate].
  rewrite result_ok. intros [= <-].
  apply Path_Ok_inv in HP as [Hcodes _].
  apply coding_Ok_inv in Hc0 as (n & Hn & ->).
  apply mapM_coding_Ok_inv in Hcs as (sizes & Hlen & Hall & ->).
  exists holes, rs, n, sizes.
  split; [done|]. split; [done|]. split; [done|]. split; [by constructor|].
  by rewrite fmap_cons.
Qed.

Lemma filter_MOVETO_ring_codes sizes :
  length (filter (fun c => c = MOVETO) (mjoin (ring_codes <$> sizes))) = length sizes.
Proof.
  induction sizes as [|n sizes IH]; [done|].
  rewrite fmap_cons. change (mjoin (?x :: ?l)) with (x ++ mjoin l).
  rewrite filter_app, length_app, IH. unfold ring_codes.
  rewrite filter_cons_True by done. cbn [length]. f_equal.
  induction (n - 1) as [|k IHk]; [done|].
  cbn [replicate]. by rewrite filter_cons_False.
Qed.

(** A path that comes back holds exactly one MOVETO for the exterior
    and one for each item of the adapter's [interiors]: as many
    sub-paths as the polygon has rings. *)
Theorem PolygonPath_one_MOVETO_per_ring p holes rs path w :
  returns (interiors (Polygon p)) holes ->
  py_list holes = Ok rs ->
  fst (PolygonPath p w) = Ok (Some path) ->
  length (filter (fun c => c = MOVETO) (codes path)) = S (length rs).
Proof.
  intros Hi%answer_returns Hrs Hpath; [|auto with oblivious].
  apply PolygonPath_Ok_inv in Hpath
    as (holes' & rs' & n & sizes & Hi' & Hrs' & Hlen & _ & ->).
  rewrite Hi in Hi'. injection Hi' as <-.
  rewrite Hrs in Hrs'. injection Hrs' as <-.
  rewrite filter_MOVETO_ring_codes. cbn [length]. by rewrite Hlen.
Qed.

Lemma PolygonPath_one_MOVETO_per_ring_witness :
  length (filter (fun c => c = MOVETO)
            (codes (mkPath (square ++ square) (ring_codes 4 ++ ring_codes 4)))) = 2.
Proof.
  apply (PolygonPath_one_MOVETO_per_ring
           (shapely "Polygon" (ring_of square) [ring_of square])
           (VList [ring_value square]) [ring_value square] _ verbose).
  - intros w. reflexivity.
  - reflexivity.
  - reflexivity.
Defined.
